(** * GEDI pipeline: download engine and orchestration

    A shallow embedding of [pipeline/pipeline/downloader.py] and
    [pipeline/pipeline/pipeline.py].  Python code that touches the file
    system, the network, standard output or a shared event is written as
    a function from a [World] to an [Outcome]: either a value or a raised
    exception, each with the world it leaves behind. *)

From stdpp Require Import gmap strings list fin_maps.
From Stdlib Require Import ZArith Ascii.

Open Scope string_scope.

(** ** Python string operations used by the sources *)

Module PyStr.

(** [s.split(c)] for a one-character separator: never empty, keeps
    empty segments. *)
Fixpoint split (c : Ascii.ascii) (s : string) : list string :=
  match s with
  | EmptyString => [EmptyString]
  | String a s' =>
      let r := split c s' in
      if Ascii.eqb a c then EmptyString :: r
      else match r with
           | h :: t => String a h :: t
           | [] => [String a EmptyString]
           end
  end.

(** [s.split("/")[-1]] *)
Definition last_segment (s : string) : string :=
  List.last (split "/"%char s) EmptyString.

(** [sub in s] *)
Fixpoint contains (sub s : string) : bool :=
  String.prefix sub s
  || match s with
     | EmptyString => false
     | String _ s' => contains sub s'
     end.

(** [s.replace(old, new)] for a non-empty [old]: occurrences are found
    left to right and do not overlap.  [skip] counts the characters of
    a matched occurrence that are still to be dropped. *)
Fixpoint replace_from (old new : string) (skip : nat) (s : string) : string :=
  match s with
  | EmptyString => EmptyString
  | String a s' =>
      match skip with
      | S k => replace_from old new k s'
      | O =>
          if String.prefix old s
          then new ++ replace_from old new (String.length old - 1) s'
          else String a (replace_from old new 0 s')
      end
  end.

Definition replace (old new s : string) : string := replace_from old new 0 s.

Definition starts_with_sep (s : string) : bool :=
  match s with
  | String a _ => Ascii.eqb a "/"%char
  | EmptyString => false
  end.

Fixpoint ends_with_sep (s : string) : bool :=
  match s with
  | EmptyString => false
  | String a EmptyString => Ascii.eqb a "/"%char
  | String _ s' => ends_with_sep s'
  end.

(** [os.path.join(a, b)] (posixpath). *)
Definition path_join (a b : string) : string :=
  if starts_with_sep b then b
  else if String.eqb a EmptyString || ends_with_sep a then a ++ b
  else a ++ "/" ++ b.

(** [s.rstrip("/")] *)
Fixpoint rstrip_sep (s : string) : string :=
  match s with
  | EmptyString => EmptyString
  | String a s' =>
      match rstrip_sep s' with
      | EmptyString => if Ascii.eqb a "/"%char then EmptyString else String a EmptyString
      | r => String a r
      end
  end.

(** [s == "/" * len(s)] *)
Fixpoint all_sep (s : string) : bool :=
  match s with
  | EmptyString => true
  | String a s' => Ascii.eqb a "/"%char && all_sep s'
  end.

(** [s[:s.rfind("/") + 1]] *)
Fixpoint through_last_sep (s : string) : string :=
  match s with
  | EmptyString => EmptyString
  | String a s' =>
      if Ascii.eqb a "/"%char || contains "/" s'
      then String a (through_last_sep s')
      else EmptyString
  end.

(** [os.path.dirname(p)] (posixpath). *)
Definition dirname (p : string) : string :=
  let head := through_last_sep p in
  if all_sep head then head else rstrip_sep head.

(** The directory a path names an entry of: trailing separators do not
    count, as in path resolution. *)
Definition parent (p : string) : string :=
  dirname (if all_sep p then p else rstrip_sep p).

End PyStr.

(** ** The world the code runs in *)

(** A path names a regular file with its bytes, or a directory with the
    size [os.path.getsize] reports for it. *)
Inductive Node :=
| File (content : list Byte.byte)
| Dir (st_size : nat).

Definition node_size (n : Node) : nat :=
  match n with
  | File c => length c
  | Dir s => s
  end.

(** A granule descriptor as the finder returns it: a sequence whose first
    element [g[0]] is the download URL. *)
Record Granule := {
  g_url : string;
  g_fields : list string
}.

(** Lines written by [print].  The text of each f-string is kept as a
    constructor with the values it interpolates. *)
Inductive Msg :=
| MsgLoggingIn
| MsgInvalidURL (url : string)
| MsgInvalidCredentials
| MsgMissingContentLength
| MsgDownloading (file_path : string)
| MsgCorrupted (file_path : string)
| MsgExists (file_path : string)
| MsgFailRetrying (g : Granule)
| MsgRetry (retries : nat)
| MsgFailSkipping (g : Granule)
| MsgCancelled
| MsgAlreadySubsetted (g : Granule)
| MsgRoiNoCrs
| MsgRoiBounds
| MsgRoiReadFailed.

(** Raised exceptions.  Every constructor is a subclass of [Exception],
    which is what the [except Exception] clauses of the sources catch;
    [KeyboardInterrupt] and [SystemExit] are not part of the model. *)
Inductive Exn :=
| TypeError
| ValueError
| AttributeError
| FileNotFoundError
| IsADirectoryError
| RequestException
| OtherError (tag : string).

Record World := {
  fs : gmap string Node;        (* the file system *)
  stdout : list Msg;            (* printed lines, oldest first *)
  requests : list string;       (* URLs of the GET requests issued so far *)
  received : nat;               (* body bytes pulled from response streams *)
  polls : nat;                  (* calls of cancel_event.is_set() so far *)
  attempts : list string        (* trace only: URLs passed to download_granule *)
}.

Definition set_fs (f : gmap string Node → gmap string Node) (w : World) : World :=
  {| fs := f (fs w); stdout := stdout w; requests := requests w;
     received := received w; polls := polls w; attempts := attempts w |}.

Definition add_stdout (m : Msg) (w : World) : World :=
  {| fs := fs w; stdout := stdout w ++ [m]; requests := requests w;
     received := received w; polls := polls w; attempts := attempts w |}.

Definition add_request (url : string) (w : World) : World :=
  {| fs := fs w; stdout := stdout w; requests := requests w ++ [url];
     received := received w; polls := polls w; attempts := attempts w |}.

Definition add_received (n : nat) (w : World) : World :=
  {| fs := fs w; stdout := stdout w; requests := requests w;
     received := received w + n; polls := polls w; attempts := attempts w |}.

Definition add_poll (w : World) : World :=
  {| fs := fs w; stdout := stdout w; requests := requests w;
     received := received w; polls := S (polls w); attempts := attempts w |}.

Definition add_attempt (url : string) (w : World) : World :=
  {| fs := fs w; stdout := stdout w; requests := requests w;
     received := received w; polls := polls w; attempts := attempts w ++ [url] |}.

(** ** Outcomes: a value or a raised exception *)

Inductive Outcome (A : Type) :=
| Val (a : A) (w : World)
| Exc (e : Exn) (w : World).

Arguments Val {A} a w.
Arguments Exc {A} e w.

Definition M (A : Type) : Type := World → Outcome A.

Definition ret {A} (a : A) : M A := fun w => Val a w.

Definition raise {A} (e : Exn) : M A := fun w => Exc e w.

Definition bind {A B} (c : M A) (k : A → M B) : M B :=
  fun w =>
    match c w with
    | Val a w' => k a w'
    | Exc e w' => Exc e w'
    end.

Declare Scope py_scope.
Delimit Scope py_scope with py.

Notation "x <- c ;; k" := (bind c (fun x => k))
  (at level 100, c at next level, right associativity) : py_scope.
Notation "c ;; k" := (bind c (fun _ => k))
  (at level 100, right associativity) : py_scope.

Open Scope py_scope.

(** The world an outcome leaves behind. *)
Definition world_of {A} (o : Outcome A) : World :=
  match o with
  | Val _ w => w
  | Exc _ w => w
  end.

(** [for x in xs: body(x)] where the body neither breaks nor returns. *)
Fixpoint for_each {A} (body : A → M unit) (xs : list A) : M unit :=
  match xs with
  | [] => ret tt
  | x :: xs' => body x ;; for_each body xs'
  end.

(** ** Primitive effects *)

Definition print (m : Msg) : M unit := fun w => Val tt (add_stdout m w).

Definition os_path_exists (path : string) : M bool :=
  fun w => Val (bool_decide (is_Some (fs w !! path))) w.

(** [os.path.getsize]: raises when nothing is at [path]. *)
Definition os_path_getsize (path : string) : M nat :=
  fun w =>
    match fs w !! path with
    | Some n => Val (node_size n) w
    | None => Exc FileNotFoundError w
    end.

(** [os.remove]: removes a regular file, raises otherwise. *)
Definition os_remove (path : string) : M unit :=
  fun w =>
    match fs w !! path with
    | Some (File _) => Val tt (set_fs (delete path) w)
    | Some (Dir _) => Exc IsADirectoryError w
    | None => Exc FileNotFoundError w
    end.

(** [open(path, "wb")]: creates or truncates the file, and raises on a
    directory.  The directory that is to hold the file is taken to be
    there: the statements that open a new file say so where it matters. *)
Definition open_wb (path : string) : M unit :=
  fun w =>
    match fs w !! path with
    | Some (Dir _) => Exc IsADirectoryError w
    | _ => Val tt (set_fs (<[path := File []]>) w)
    end.

Definition file_bytes (o : option Node) : list Byte.byte :=
  match o with
  | Some (File c) => c
  | _ => []
  end.

(** [file.write(chunk)] on the file opened at [path]. *)
Definition file_write (path : string) (chunk : list Byte.byte) : M unit :=
  fun w => Val tt (set_fs (fun m => <[path := File (file_bytes (m !! path) ++ chunk)]> m) w).

(** [os.mkdir]: makes one directory, whose reported size is [st_size].
    It is not recursive: the directory that is to hold the new one must
    be there.  A parent made of separators only is the root, an empty
    one the current directory; both exist. *)
Definition os_mkdir (st_size : nat) (path : string) : M unit :=
  fun w =>
    match path, fs w !! path with
    | EmptyString, _ => Exc FileNotFoundError w
    | _, Some _ => Exc (OtherError "FileExistsError") w
    | _, None =>
        let parent := PyStr.parent path in
        if PyStr.all_sep path then Exc (OtherError "FileExistsError") w
        else if PyStr.all_sep parent then Val tt (set_fs (<[path := Dir st_size]>) w)
        else
          match fs w !! parent with
          | Some (Dir _) => Val tt (set_fs (<[path := Dir st_size]>) w)
          | Some (File _) => Exc (OtherError "NotADirectoryError") w
          | None => Exc FileNotFoundError w
          end
    end.

(** ** The outside: HTTP server, Python built-ins, collaborators *)

(** What [iter_content] yields: the chunks, and whether the stream then
    breaks with a transport error instead of ending. *)
Record Stream := {
  chunks : list (list Byte.byte);
  fault : bool
}.

Record Response := {
  resp_ok : bool;
  resp_headers : gmap string string;
  resp_iter_content : Z → Stream
}.

Inductive GetResult :=
| GetRaises (e : Exn)
| GetReturns (r : Response).

(** What the downloader calls but does not define. *)
Record Env := {
  (* int(s) on a str; None stands for ValueError *)
  py_int : string → option Z;
  (* session.get(url, stream=True), redirects followed: the outcome of
     the n-th request of the run *)
  server : nat → string → GetResult;
  (* the .netrc lookup and the prompt of SessionNASA._load_credentials *)
  netrc_or_prompt : M (string * string);
  (* size reported for a directory made by os.mkdir *)
  mkdir_size : nat
}.

(** ** downloader.py: SessionNASA *)

Module SessionNASA.

Definition AUTH_HOST : string := "urs.earthdata.nasa.gov".

Definition truthy (s : option string) : bool :=
  match s with
  | Some (String _ _) => true
  | _ => false
  end.

Definition _load_credentials (env : Env) (username password : option string)
  : M (string * string) :=
  if truthy username && truthy password
  then ret (default EmptyString username, default EmptyString password)
  else netrc_or_prompt env.

(** A prepared request: its headers (a case-insensitive dictionary,
    keyed here by the spelling the code uses) and its URL. *)
Record PreparedRequest := {
  headers : gmap string string;
  url : string
}.

Section RebuildAuth.

(** [requests.utils.urlparse(u).hostname] *)
Variable hostname : string → option string.

(** [rebuild_auth(prepared_request, response)]: [original_url] is
    [response.request.url]; the result is the request with its headers
    as the method leaves them. *)
Definition rebuild_auth (prepared_request : PreparedRequest) (original_url : string)
  : PreparedRequest :=
  let headers := headers prepared_request in
  let url := url prepared_request in
  if bool_decide (is_Some (headers !! "Authorization")) then
    let original_parsed := hostname original_url in
    let redirect_parsed := hostname url in
    if bool_decide (original_parsed ≠ redirect_parsed)
       && bool_decide (redirect_parsed ≠ Some AUTH_HOST)
       && bool_decide (original_parsed ≠ Some AUTH_HOST)
    then {| headers := delete "Authorization" headers; url := url |}
    else prepared_request
  else prepared_request.

End RebuildAuth.

End SessionNASA.

(** ** downloader.py: GEDIDownloader *)

Record GEDIDownloader := {
  save_path : string;
  session : string * string
}.

Definition session_get (env : Env) (url : string) : M Response :=
  fun w =>
    match server env (length (requests w)) url with
    | GetRaises e => Exc e (add_request url w)
    | GetReturns r => Val r (add_request url w)
    end.

(** [int(s)] *)
Definition int (env : Env) (s : string) : M Z :=
  match py_int env s with
  | Some z => ret z
  | None => raise ValueError
  end.

Section Downloader.

Variable env : Env.

Definition GEDIDownloader_init (persist_login : bool) (save_path : option string)
  : M GEDIDownloader :=
  print MsgLoggingIn ;;
  creds <- SessionNASA._load_credentials env None None ;;
  ret {| save_path := default EmptyString save_path; session := creds |}.

Variable self : GEDIDownloader.

(** The loop of [__download]: every chunk is pulled from the stream,
    empty ones are not written. *)
Fixpoint write_chunks (path : string) (content : list (list Byte.byte)) : M unit :=
  match content with
  | [] => ret tt
  | chunk :: rest =>
      (fun w => Val tt (add_received (length chunk) w)) ;;
      (match chunk with
       | [] => ret tt
       | _ => file_write path chunk
       end) ;;
      write_chunks path rest
  end.

Definition download (content : Stream) (save_path : string) : M unit :=
  open_wb save_path ;;
  write_chunks save_path (chunks content) ;;
  if fault content then raise RequestException else ret tt.

Definition precheck_file (file_path : string) (size : Z) : M bool :=
  e <- os_path_exists file_path ;;
  if negb e then
    print (MsgDownloading file_path) ;;
    ret false
  else
    have <- os_path_getsize file_path ;;
    if negb (Z.of_nat have =? size)%Z then
      print (MsgCorrupted file_path) ;;
      os_remove file_path ;;
      ret false
    else
      print (MsgExists file_path) ;;
      ret true.

Definition download_granule (url : string) (chunk_size : Z) : M bool :=
  (fun w => Val tt (add_attempt url w)) ;;
  let filename := PyStr.last_segment url in
  if negb (PyStr.contains "GEDI" filename) then
    print (MsgInvalidURL url) ;;
    ret false
  else
    let file_path := PyStr.path_join (save_path self) filename in
    let chunk_size := (chunk_size * 1024)%Z in
    http_response <- session_get env url ;;
    if negb (resp_ok http_response) then
      print MsgInvalidCredentials ;;
      ret false
    else
      match resp_headers http_response !! "content-length" with
      | None =>
          print MsgMissingContentLength ;;
          ret false
      | Some response_length =>
          size <- int env response_length ;;
          complete <- precheck_file file_path size ;;
          (if negb complete
           then download (resp_iter_content http_response chunk_size) file_path
           else ret tt) ;;
          have <- os_path_getsize file_path ;;
          size' <- int env response_length ;;
          if negb (Z.of_nat have =? size')%Z then ret false else ret true
      end.

(** The [while retries > 0] loop; its value is [retries] on exit. *)
Fixpoint retry_loop (g : Granule) (retries : nat) : M nat :=
  match retries with
  | O => ret O
  | S retries' =>
      print (MsgRetry retries) ;;
      ok <- download_granule (g_url g) 128 ;;
      if ok then ret retries else retry_loop g retries'
  end.

(** One iteration of the [for g in files_url] loop. *)
Definition download_one (g : Granule) : M unit :=
  ok <- download_granule (g_url g) 128 ;;
  if negb ok then
    print (MsgFailRetrying g) ;;
    retries <- retry_loop g 3 ;;
    if Nat.eqb retries 0 then print (MsgFailSkipping g) else ret tt
  else ret tt.

Definition download_files (files_url : list Granule) : M (list Granule) :=
  for_each download_one files_url ;;
  ret files_url.

End Downloader.

(** ** pipeline.py: GEDIPipeline *)

(** [try: body / except Exception as e: handler(e)] *)
Definition try_except {A} (body : M A) (handler : Exn → M A) : M A :=
  fun w =>
    match body w with
    | Val a w' => Val a w'
    | Exc e w' => handler e w'
    end.

(** A list comprehension [[f(c) for c in l]]. *)
Fixpoint map_m {A B} (f : A → M B) (l : list A) : M (list B) :=
  match l with
  | [] => ret []
  | x :: l' => y <- f x ;; ys <- map_m f l' ;; ret (y :: ys)
  end.

(** [iter(n)] on an int, as [for r in n] evaluates it. *)
Definition iter_int (n : nat) : M (list nat) := raise TypeError.

Section Pipeline.

Variable env : Env.

(** Python floats and geopandas frames are kept abstract. *)
Variable Coord : Type.
Variable Gdf : Type.

(** [float(s)] on a str; [None] stands for ValueError. *)
Variable py_float : string → option Coord.

(** geopandas: [gp.read_file], [gdf.crs is None],
    [gdf.set_crs(epsg=4326, inplace=True)], [gdf.to_crs(epsg=4326)] and
    the unpacking of [gdf.total_bounds]. *)
Variable gp_read_file : string → M Gdf.
Variable crs_is_none : Gdf → bool.
Variable set_crs : Gdf → M Gdf.
Variable to_crs : Gdf → M Gdf.
Variable total_bounds : Gdf → M (Coord * Coord * Coord * Coord).

(** The collaborators, as functions of what their constructors receive:
    [GEDIFinder(product, version, date_start, date_end, recurring_months,
    roi).find(output_filepath, save_file=True)] and [GEDISubsetter(roi,
    product, out_dir, sds, beams, roi_gdf).subset(path)]. *)
Variable GEDIFinder_find :
  string → string → string → string → bool → list Coord → string → M (list Granule).
Variable GEDISubsetter_subset :
  list Coord → string → string → option (list string) → option (list string) →
  option Gdf → string → M unit.

(** An element of a list passed as [roi]: a float, which [float]
    returns as it is, or a str. *)
Inductive Scalar :=
| Num (c : Coord)
| Str (s : string).

(** The [roi] argument by its Python type. *)
Inductive RoiArg :=
| RoiList (l : list Scalar)
| RoiStr (s : string)
| RoiOther.

Definition float (x : Scalar) : M Coord :=
  match x with
  | Num c => ret c
  | Str s =>
      match py_float s with
      | Some c => ret c
      | None => raise ValueError
      end
  end.

Record GEDIPipeline := {
  product : string;
  version : string;
  date_start : string;
  date_end : string;
  recurring_months : bool;
  keep_original_file : bool;
  roi_path : option string;
  roi : list Coord;
  roi_gdf : option Gdf;
  out_directory : string;
  sds : option (list string);
  beams : option (list string);
  persist_login : bool;
  (* threading.Event: what is_set() answers at the n-th poll *)
  cancel_event : option (nat → bool);
  downloader : GEDIDownloader
}.

(** Lines 27-31 of [__init__]: the value of [self.roi] after the two
    [isinstance] tests; [None] means the attribute is not assigned. *)
Definition roi_of_arg (roi : RoiArg) : M (option (list Coord)) :=
  self_roi <- match roi with
              | RoiList l => r <- map_m float l ;; ret (Some r)
              | _ => ret None
              end ;;
  match roi with
  | RoiStr s => r <- map_m float (Str <$> PyStr.split ","%char s) ;; ret (Some r)
  | _ => ret self_roi
  end.

(** Lines 36-41: reading the polygon file and bringing it to EPSG:4326. *)
Definition read_polygon (path : string) : M Gdf :=
  gdf <- gp_read_file path ;;
  if crs_is_none gdf
  then print MsgRoiNoCrs ;; set_crs gdf
  else to_crs gdf.

(** Lines 35-47: the [try] block over the polygon file.  The pair is
    [(self.roi_gdf, self.roi)].  An exception raised after
    [self.roi_gdf = gdf] leaves that assignment in place, which the
    inner handler accounts for. *)
Definition load_roi_polygon (path : string) (roi : option (list Coord))
  : M (option Gdf * option (list Coord)) :=
  try_except
    (gdf <- read_polygon path ;;
     try_except
       (b <- total_bounds gdf ;;
        let '(minx, miny, maxx, maxy) := b in
        print MsgRoiBounds ;;
        ret (Some gdf, Some [maxy; minx; miny; maxx]))
       (fun _ => print MsgRoiReadFailed ;; ret (Some gdf, roi)))
    (fun _ => print MsgRoiReadFailed ;; ret (None, roi)).

(** Lines 49-80: the collaborators and the output directory.
    [GEDIFinder(..., roi=self.roi)] reads the attribute [roi], which
    raises when it was never assigned. *)
Definition init_collaborators
  (out_directory product version date_start date_end : string)
  (sds beams : option (list string))
  (recurring_months persist_login keep_original_file : bool)
  (cancel_event : option (nat → bool)) (roi_path : option string)
  (self_roi_gdf : option Gdf) (self_roi : option (list Coord))
  : M GEDIPipeline :=
  the_roi <- match self_roi with
             | Some r => ret r
             | None => raise AttributeError
             end ;;
  the_downloader <- GEDIDownloader_init env persist_login (Some out_directory) ;;
  e <- os_path_exists out_directory ;;
  (if negb e then os_mkdir (mkdir_size env) out_directory else ret tt) ;;
  ret {| product := product; version := version;
         date_start := date_start; date_end := date_end;
         recurring_months := recurring_months;
         keep_original_file := keep_original_file;
         roi_path := roi_path; roi := the_roi; roi_gdf := self_roi_gdf;
         out_directory := out_directory; sds := sds; beams := beams;
         persist_login := persist_login; cancel_event := cancel_event;
         downloader := the_downloader |}.

Definition GEDIPipeline_init
  (out_directory product version date_start date_end : string)
  (roi : RoiArg) (sds beams : option (list string))
  (recurring_months persist_login keep_original_file : bool)
  (cancel_event : option (nat → bool)) (roi_path : option string)
  : M GEDIPipeline :=
  self_roi <- roi_of_arg roi ;;
  loaded <- (if SessionNASA.truthy roi_path
             then load_roi_polygon (default EmptyString roi_path) self_roi
             else ret (None, self_roi)) ;;
  init_collaborators out_directory product version date_start date_end
    sds beams recurring_months persist_login keep_original_file
    cancel_event roi_path loaded.1 loaded.2.

Variable self : GEDIPipeline.

Definition finder_find (output_filepath : string) : M (list Granule) :=
  GEDIFinder_find (product self) (version self) (date_start self) (date_end self)
    (recurring_months self) (roi self) output_filepath.

Definition subsetter_subset (path : string) : M unit :=
  GEDISubsetter_subset (roi self) (product self) (out_directory self)
    (sds self) (beams self) (roi_gdf self) path.

(** Line 89: [self.cancel_event is not None and self.cancel_event.is_set()] *)
Definition cancel_requested : M bool :=
  match cancel_event self with
  | None => ret false
  | Some is_set => fun w => Val (is_set (polls w)) (add_poll w)
  end.

(** Lines 93-114: the loop body below the cancellation check.  Both
    [continue] statements end the iteration, as does reaching its end. *)
Definition process_granule (g : Granule) : M unit :=
  let filename := PyStr.last_segment (g_url g) in
  subsetted <- os_path_exists
    (PyStr.path_join (out_directory self) (PyStr.replace ".h5" ".gpkg" filename)) ;;
  if subsetted then
    print (MsgAlreadySubsetted g)
  else
    ok <- download_granule env (downloader self) (g_url g) 128 ;;
    if negb ok then
      let retries := 3 in
      print (MsgFailRetrying g) ;;
      rs <- iter_int retries ;;
      for_each (fun r =>
                  print (MsgRetry r) ;;
                  _ <- download_granule env (downloader self) (g_url g) 128 ;;
                  ret tt) rs ;;
      print (MsgFailSkipping g)
    else
      subsetter_subset (PyStr.path_join (out_directory self) filename) ;;
      if negb (keep_original_file self)
      then os_remove (PyStr.path_join (out_directory self) filename)
      else ret tt.

Inductive LoopExit :=
| Exhausted   (* the list ran out *)
| Broke.      (* the break of line 91 *)

(** The [for g in all_granules] loop. *)
Fixpoint for_granules (gs : list Granule) : M LoopExit :=
  match gs with
  | [] => ret Exhausted
  | g :: gs' =>
      cancelled <- cancel_requested ;;
      if cancelled then
        print MsgCancelled ;;
        ret Broke
      else
        process_granule g ;;
        for_granules gs'
  end.

Definition run_pipeline : M (list Granule) :=
  all_granules <- finder_find (out_directory self) ;;
  for_granules all_granules ;;
  ret all_granules.

End Pipeline.

Arguments RoiList {Coord} l.
Arguments RoiStr {Coord} s.
Arguments RoiOther {Coord}.
Arguments Num {Coord} c.
Arguments Str {Coord} s.

Arguments product {Coord Gdf} g.
Arguments version {Coord Gdf} g.
Arguments date_start {Coord Gdf} g.
Arguments date_end {Coord Gdf} g.
Arguments recurring_months {Coord Gdf} g.
Arguments keep_original_file {Coord Gdf} g.
Arguments roi_path {Coord Gdf} g.
Arguments roi {Coord Gdf} g.
Arguments roi_gdf {Coord Gdf} g.
Arguments out_directory {Coord Gdf} g.
Arguments sds {Coord Gdf} g.
Arguments beams {Coord Gdf} g.
Arguments persist_login {Coord Gdf} g.
Arguments cancel_event {Coord Gdf} g.
Arguments downloader {Coord Gdf} g.
Arguments roi_of_arg {Coord} py_float roi w.
Arguments read_polygon {Gdf} gp_read_file crs_is_none set_crs to_crs path w.
Arguments load_roi_polygon {Coord Gdf} gp_read_file crs_is_none set_crs to_crs
  total_bounds path roi w.
Arguments init_collaborators env {Coord Gdf}.
Arguments GEDIPipeline_init env {Coord Gdf}.
Arguments finder_find {Coord Gdf} GEDIFinder_find self output_filepath w.
Arguments subsetter_subset {Coord Gdf} GEDISubsetter_subset self path w.
Arguments cancel_requested {Coord Gdf} self w.
Arguments process_granule env {Coord Gdf} GEDISubsetter_subset self g w.
Arguments for_granules env {Coord Gdf} GEDISubsetter_subset self gs w.
Arguments run_pipeline env {Coord Gdf} GEDIFinder_find GEDISubsetter_subset self w.

(** ** downloader.py: the credential lookup of SessionNASA *)

Section Credentials.

(** [os.path.expanduser] *)
Variable expanduser : string → string.

(** [netrc.netrc(path).authenticators(host)] on the file stored at
    [path]: the entry [(login, account, password)] for the host, [None]
    inside when the file has no entry for it, [None] outside when
    reading or parsing raises. *)
Variable netrc_authenticators :
  string → Node → string → option (option (string * string * string)).

(** Lines 34-37 of [_load_credentials]: the printed notice, [input] and
    [getpass.getpass]. *)
Variable prompt : M (string * string).

Definition netrc_read (path host : string) : M (option (string * string * string)) :=
  fun w =>
    match fs w !! path with
    | Some node =>
        match netrc_authenticators path node host with
        | Some creds => Val creds w
        | None => Exc (OtherError "NetrcParseError") w
        end
    | None => Exc FileNotFoundError w
    end.

(** Lines 24-31: the loop over the two files.  An exception raised
    while reading a file moves on to the next one. *)
Fixpoint netrc_lookup (netrc_paths : list string) : M (option (string * string)) :=
  match netrc_paths with
  | [] => ret None
  | path :: rest =>
      e <- os_path_exists path ;;
      if e then
        creds <- try_except
                   (c <- netrc_read path SessionNASA.AUTH_HOST ;; ret c)
                   (fun _ => ret None) ;;
        match creds with
        | Some (login, _, password) => ret (Some (login, password))
        | None => netrc_lookup rest
        end
      else netrc_lookup rest
  end.

(** Lines 22-37: what [_load_credentials] does when it was not given
    both a username and a password. *)
Definition lookup_or_prompt : M (string * string) :=
  found <- netrc_lookup [expanduser "~/.netrc"; expanduser "~/_netrc"] ;;
  match found with
  | Some creds => ret creds
  | None => prompt
  end.

End Credentials.

(** ** gedi_pipeline_plugin_dialog.py: StreamToSignal *)

Section StreamToSignal.

(** [str.isspace] on one character. *)
Variable isspace : Ascii.ascii → bool.

Fixpoint lstrip (s : string) : string :=
  match s with
  | EmptyString => EmptyString
  | String a s' => if isspace a then lstrip s' else s
  end.

Fixpoint rstrip (s : string) : string :=
  match s with
  | EmptyString => EmptyString
  | String a s' =>
      match rstrip s' with
      | EmptyString => if isspace a then EmptyString else String a EmptyString
      | r => String a r
      end
  end.

(** [text.strip()] *)
Definition strip (text : string) : string := lstrip (rstrip text).

(** [StreamToSignal.write(text)]: the text passed to [signal.emit], if
    any. *)
Definition StreamToSignal_write (text : string) : option string :=
  let text := strip text in
  match text with
  | EmptyString => None
  | _ => Some text
  end.

End StreamToSignal.

(** ** gedi_pipeline_plugin_dialog.py: the credential file *)

(** What [_prepare_netrc] sends to the log signal, by file. *)
Inductive AuthLog :=
| AuthWrote (netrc_path : string)
| AuthFailed (netrc_path : string).

(** Whether [d] is a directory of the world.  A name made of separators
    only is the root, the empty name the current directory. *)
Definition dir_exists (w : World) (d : string) : bool :=
  PyStr.all_sep d
  || match fs w !! d with
     | Some (Dir _) => true
     | _ => false
     end.

Definition nonempty (s : string) : bool :=
  match s with
  | EmptyString => false
  | String _ _ => true
  end.

(** The f-string of line 111. *)
Definition netrc_line (user pwd : string) : string :=
  ("machine urs.earthdata.nasa.gov login " ++ user ++ " password " ++ pwd
   ++ String "010"%char EmptyString)%string.

Section PrepareNetrc.

(** [Path.home()]; [None] where no home directory can be determined,
    and [Path.home()] raises RuntimeError. *)
Variable path_home : option string.

(** [str(Path(d) / name)] *)
Variable joinpath : string → string → string.

(** [os.name == "nt"] *)
Variable is_nt : bool.

(** Text mode: the bytes stored for a str under the encoding and the
    newline translation of the platform; [None] where the str cannot be
    encoded. *)
Variable encode_text : string → option (list Byte.byte).

(** Whether the operating system grants writing the file at a path
    (permissions, quota). *)
Variable permits : string → bool.

(** [self.params[key]] *)
Definition params_get (params : gmap string string) (key : string) : M string :=
  match params !! key with
  | Some v => ret v
  | None => raise (OtherError "KeyError")
  end.

Definition home : M string :=
  match path_home with
  | Some h => ret h
  | None => raise (OtherError "RuntimeError")
  end.

(** [(Path(d) / name).write_text(content)]: the file is opened for
    writing, which creates or truncates it and needs [d] to be a
    directory, and then holds the encoded text. *)
Definition write_text (d name content : string) : M unit :=
  fun w =>
    let path := joinpath d name in
    match fs w !! path with
    | Some (Dir _) => Exc IsADirectoryError w
    | _ =>
        if negb (dir_exists w d) then Exc FileNotFoundError w
        else if negb (permits path) then Exc (OtherError "PermissionError") w
        else
          match encode_text content with
          | Some bytes => Val tt (set_fs (<[path := File bytes]>) w)
          | None => Exc (OtherError "UnicodeEncodeError") (set_fs (<[path := File []]>) w)
          end
    end.

(** The body of the loop of [_prepare_netrc] for the file [d / name].
    File permissions are not part of the world, so [chmod], whose
    exceptions are passed over, leaves no trace. *)
Definition write_netrc (content d name : string) : M AuthLog :=
  try_except
    (write_text d name content ;;
     ret (AuthWrote (joinpath d name)))
    (fun _ => ret (AuthFailed (joinpath d name))).

(** Lines 113-115: the files to write, each as the directory and the
    name it is made of. *)
Definition netrc_files : M (list (string * string)) :=
  d <- home ;;
  if is_nt
  then d' <- home ;; ret [(d, ".netrc"); (d', "_netrc")]
  else ret [(d, ".netrc")].

(** [PipelineWorker._prepare_netrc]; its value is what it sent to the
    log. *)
Definition _prepare_netrc (params : gmap string string) : M (list AuthLog) :=
  user <- params_get params "earthdata_user" ;;
  pwd <- params_get params "earthdata_pass" ;;
  if negb (nonempty user) || negb (nonempty pwd) then ret []
  else
    let content := netrc_line user pwd in
    files <- netrc_files ;;
    map_m (fun f => write_netrc content f.1 f.2) files.

End PrepareNetrc.

Section NetrcFile.

(** [str(Path.home() / name)] *)
Variable home_file : string → string.

(** [candidate.exists() and candidate.stat().st_size > 0] *)
Definition exists_nonempty (candidate : string) : M bool :=
  fun w =>
    match fs w !! candidate with
    | Some node => Val (0 <? node_size node)%nat w
    | None => Val false w
    end.

Fixpoint any_candidate (candidates : list string) : M bool :=
  match candidates with
  | [] => ret false
  | candidate :: rest =>
      ok <- exists_nonempty candidate ;;
      if ok then ret true else any_candidate rest
  end.

(** [GEDIPipelineDialog._has_credentials] *)
Definition _has_credentials (user pwd : string) : M bool :=
  if nonempty user && nonempty pwd then ret true
  else any_candidate [home_file ".netrc"; home_file "_netrc"].

End NetrcFile.

(** ** Concrete instances

    Small stand-ins for the library functions, and a few servers and
    collaborators, on which the properties below are run. *)

Module Sample.

Definition digit (a : Ascii.ascii) : option Z :=
  let n := Ascii.nat_of_ascii a in
  if (48 <=? n)%nat && (n <=? 57)%nat then Some (Z.of_nat (n - 48)) else None.

Fixpoint decimal_from (acc : Z) (s : string) : option Z :=
  match s with
  | EmptyString => Some acc
  | String a s' =>
      match digit a with
      | Some d => decimal_from (10 * acc + d)%Z s'
      | None => None
      end
  end.

(** [int] on strings of ASCII digits; anything else is rejected. *)
Definition decimal (s : string) : option Z :=
  match s with
  | EmptyString => None
  | _ => decimal_from 0 s
  end.

(** The host of a URL of the shape [scheme://host/path], with no user
    information, port or IPv6 literal, already in lower case. *)
Fixpoint until_slash (s : string) : string :=
  match s with
  | EmptyString => EmptyString
  | String a s' => if Ascii.eqb a "/"%char then EmptyString else String a (until_slash s')
  end.

Fixpoint after_scheme (s : string) : option string :=
  match s with
  | EmptyString => None
  | String a s' =>
      if String.prefix "://" s then Some (String.substring 3 (String.length s) s)
      else after_scheme s'
  end.

Definition hostname_of (u : string) : option string :=
  match after_scheme u with
  | Some rest =>
      match until_slash rest with
      | EmptyString => None
      | h => Some h
      end
  | None => None
  end.

Definition bytes (n : nat) : list Byte.byte := replicate n Byte.x00.

(** A response that succeeds, announces [announced] and streams [body]. *)
Definition response (announced : option string) (body : list (list Byte.byte)) : Response :=
  {| resp_ok := true;
     resp_headers := match announced with
                     | Some l => {[ "content-length" := l ]}
                     | None => ∅
                     end;
     resp_iter_content := fun _ => {| chunks := body; fault := false |} |}.

Definition forbidden : Response :=
  {| resp_ok := false;
     resp_headers := {[ "content-length" := "9" ]};
     resp_iter_content := fun _ => {| chunks := [bytes 9]; fault := false |} |}.

Definition env_with (srv : nat → string → GetResult) : Env :=
  {| py_int := decimal;
     server := srv;
     netrc_or_prompt := ret ("user", "secret");
     mkdir_size := 4096 |}.

(** Every request is refused. *)
Definition env_refusing : Env := env_with (fun _ _ => GetReturns forbidden).

(** Every request is answered with a 5-byte object in two chunks and a
    keep-alive chunk. *)
Definition env_serving : Env :=
  env_with (fun _ _ => GetReturns (response (Some "5") [bytes 2; []; bytes 3])).

(** The first two requests are refused, later ones are served. *)
Definition env_recovering : Env :=
  env_with (fun n _ =>
              if (n <? 2)%nat then GetReturns forbidden
              else GetReturns (response (Some "5") [bytes 5])).

(** The server announces 5 bytes but the stream ends after 3. *)
Definition env_truncating : Env :=
  env_with (fun _ _ => GetReturns (response (Some "5") [bytes 3])).

(** The response carries no content-length. *)
Definition env_unsized : Env :=
  env_with (fun _ _ => GetReturns (response None [bytes 5])).

Definition dl : GEDIDownloader :=
  {| save_path := "/out"; session := ("user", "secret") |}.

Definition url1 : string := "https://data.example.org/GEDI02_A_001.h5".
Definition url2 : string := "https://data.example.org/GEDI02_A_002.h5".
Definition g1 : Granule := {| g_url := url1; g_fields := [] |}.
Definition g2 : Granule := {| g_url := url2; g_fields := [] |}.

Definition world0 : World :=
  {| fs := {[ "/out" := Dir 4096 ]}; stdout := []; requests := [];
     received := 0; polls := 0; attempts := [] |}.

Definition with_file (path : string) (size : nat) (w : World) : World :=
  set_fs (<[path := File (bytes size)]>) w.

(** A finder that discovers the two granules, and a subsetter that
    writes a one-byte artifact next to the raw file. *)
Definition find_two (product version date_start date_end : string)
  (recurring_months : bool) (roi : list Z) (output_filepath : string)
  : M (list Granule) :=
  ret [g1; g2].

Definition subset_writes (roi : list Z) (product out_dir : string)
  (sds beams : option (list string)) (roi_gdf : option unit) (path : string)
  : M unit :=
  file_write (PyStr.replace ".h5" ".gpkg" path) (bytes 1).

(** A polygon file that cannot be read. *)
Definition unreadable (path : string) : M unit := raise (OtherError "DriverError").

Definition bounds_of (gdf : unit) : M (Z * Z * Z * Z) := ret (-60, -5, -45, 10)%Z.

Definition pipeline (keep : bool) (cancel : option (nat → bool)) : GEDIPipeline Z unit :=
  {| product := "GEDI02_A"; version := "002";
     date_start := "2020.01.01"; date_end := "2020.12.31";
     recurring_months := false; keep_original_file := keep;
     roi_path := None; roi := [10; -60; -5; -45]%Z; roi_gdf := None;
     out_directory := "/out"; sds := None; beams := None;
     persist_login := false; cancel_event := cancel; downloader := dl |}.

(** The event is set once [k] polls have found it clear. *)
Definition set_after (k : nat) : nat → bool := fun n => (k <=? n)%nat.

End Sample.

(** ** Vocabulary for the statements below *)

(** The [k]-th GET of the run, for [u], succeeds and announces a
    content-length that [int] reads as [n]; [r] is the response. *)
Definition announces (env : Env) (k : nat) (u : string) (r : Response) (n : Z) : Prop :=
  server env k u = GetReturns r
  ∧ resp_ok r = true
  ∧ ∃ l, resp_headers r !! "content-length" = Some l ∧ py_int env l = Some n.

(** Where [download_granule] stores the object of [u]. *)
Definition target (self : GEDIDownloader) (u : string) : string :=
  PyStr.path_join (save_path self) (PyStr.last_segment u).

(** The world once [download_granule] has issued its request. *)
Definition requested (u : string) (w : World) : World :=
  add_request u (add_attempt u w).

(** Where the pipeline expects the raw file and the artifact of [g]. *)
Definition raw_path {Coord Gdf} (self : GEDIPipeline Coord Gdf) (g : Granule) : string :=
  PyStr.path_join (out_directory self) (PyStr.last_segment (g_url g)).

Definition artifact_path {Coord Gdf} (self : GEDIPipeline Coord Gdf) (g : Granule) : string :=
  PyStr.path_join (out_directory self)
    (PyStr.replace ".h5" ".gpkg" (PyStr.last_segment (g_url g))).

(** [c] leaves the trace of attempts as it found it. *)
Definition keeps_attempts {A} (c : M A) : Prop :=
  ∀ w, attempts (world_of (c w)) = attempts w.

(** [retries_fail env self g k r w w']: entering the [while] loop of
    [download_files] in world [w] with the counter at [r], the next [k]
    retries of [g] all return [False] and leave [w']. *)
Inductive retries_fail (env : Env) (self : GEDIDownloader) (g : Granule)
  : nat → nat → World → World → Prop :=
| retries_fail_O r w : retries_fail env self g 0 r w w
| retries_fail_S k r w w1 w2 :
    download_granule env self (g_url g) 128 (add_stdout (MsgRetry (S r)) w) = Val false w1 →
    retries_fail env self g k r w1 w2 →
    retries_fail env self g (S k) (S r) w w2.

(** Every call of [download_granule] for [g] returns [False], in
    whatever world it is made. *)
Definition always_returns_false (env : Env) (self : GEDIDownloader) (g : Granule) : Prop :=
  ∀ w, ∃ w', download_granule env self (g_url g) 128 w = Val false w'.

(** ** Observations kept by a computation *)

(** [c] leaves the observation [f] of the world as it found it, however
    it ends. *)
Definition preserves {X A} (f : World → X) (c : M A) : Prop :=
  ∀ w, f (world_of (c w)) = f w.

(** The directory part [os.path.join] puts before a relative name. *)
Definition joined_dir (a : string) : string :=
  if String.eqb a EmptyString || PyStr.ends_with_sep a then a else (a ++ "/")%string.

(** The login and password the netrc file at [path] gives for the
    trusted host, if the file is there, can be read and has an entry. *)
Definition netrc_entry
  (netrc_authenticators : string → Node → string → option (option (string * string * string)))
  (w : World) (path : string) : option (string * string) :=
  match fs w !! path with
  | Some node =>
      match netrc_authenticators path node SessionNASA.AUTH_HOST with
      | Some (Some (login, _, password)) => Some (login, password)
      | _ => None
      end
  | None => None
  end.

(** Every character of [s] is white space. *)
Fixpoint all_space (isspace : Ascii.ascii → bool) (s : string) : bool :=
  match s with
  | EmptyString => true
  | String a s' => isspace a && all_space isspace s'
  end.

Definition is_dir (o : option Node) : bool :=
  match o with
  | Some (Dir _) => true
  | _ => false
  end.

(** Whether a file at [p], in the directory [d], can be opened for
    writing in [w]: nothing but a file may be there, [d] is a directory
    and the operating system grants it. *)
Definition can_open (permits : string → bool) (w : World) (d p : string) : bool :=
  negb (is_dir (fs w !! p)) && dir_exists w d && permits p.

(** What [_prepare_netrc] logs for the file at [p]. *)
Definition netrc_log (encode_text : string → option (list Byte.byte))
  (permits : string → bool) (w : World) (d content p : string) : AuthLog :=
  if can_open permits w d p && bool_decide (is_Some (encode_text content))
  then AuthWrote p
  else AuthFailed p.

(** ** More concrete instances *)

Module SampleMore.

(** No connection. *)
Definition env_offline : Env :=
  Sample.env_with (fun _ _ => GetRaises RequestException).

(** The first request is refused, the connection is lost at the second. *)
Definition env_dropping : Env :=
  Sample.env_with (fun n _ =>
                     if (n <? 1)%nat then GetReturns Sample.forbidden
                     else GetRaises RequestException).

(** A content-length that is no number. *)
Definition env_garbled : Env :=
  Sample.env_with (fun _ _ => GetReturns (Sample.response (Some "12a") [Sample.bytes 5])).

(** Subsetters that raise, and that remove the raw file themselves. *)
Definition subset_raises (roi : list Z) (product out_dir : string)
  (sds beams : option (list string)) (roi_gdf : option unit) (path : string)
  : M unit :=
  raise (OtherError "SubsetError").

Definition subset_removes (roi : list Z) (product out_dir : string)
  (sds beams : option (list string)) (roi_gdf : option unit) (path : string)
  : M unit :=
  os_remove path.

(** A finder that raises. *)
Definition find_raises (product version date_start date_end : string)
  (recurring_months : bool) (roi : list Z) (output_filepath : string)
  : M (list Granule) :=
  raise (OtherError "FinderError").

(** A polygon file that reads, and bounds that cannot be taken. *)
Definition readable (path : string) : M unit := ret tt.

Definition bounds_fail (gdf : unit) : M (Z * Z * Z * Z) := raise (OtherError "BoundsError").

(** A granule whose file name has no ".h5". *)
Definition url3 : string := "https://data.example.org/GEDI02_A_003.hdf".
Definition g3 : Granule := {| g_url := url3; g_fields := [] |}.

(** Home directory /home/u. *)
Definition expanduser (p : string) : string :=
  match p with
  | String "~"%char rest => ("/home/u" ++ rest)%string
  | _ => p
  end.

Definition home_file (name : string) : string := ("/home/u/" ++ name)%string.

Definition joinpath (d name : string) : string := (d ++ "/" ++ name)%string.

(** An encoding that stores one byte per character. *)
Definition encode_text (s : string) : option (list Byte.byte) :=
  Some (String.list_byte_of_string s).

Definition params : gmap string string :=
  {[ "earthdata_user" := "alice"; "earthdata_pass" := "s3cret" ]}.

(** The sample world with the home directory in it. *)
Definition world_home : World :=
  set_fs (<["/home/u" := Dir 4096]>) Sample.world0.

(** Only /home/u/.netrc, when it is a file that is not empty, has an
    entry; a directory cannot be read. *)
Definition authenticators (path : string) (node : Node) (host : string)
  : option (option (string * string * string)) :=
  match node with
  | Dir _ => None
  | File [] => Some None
  | File _ =>
      if String.eqb path "/home/u/.netrc"
      then Some (Some ("alice", EmptyString, "s3cret"))
      else Some None
  end.

Definition typed : M (string * string) := ret ("typed-user", "typed-password").

Definition env_auth : Env :=
  {| py_int := Sample.decimal;
     server := fun _ _ => GetReturns Sample.forbidden;
     netrc_or_prompt := lookup_or_prompt expanduser authenticators typed;
     mkdir_size := 4096 |}.

Definition world_netrc : World :=
  Sample.with_file "/home/u/.netrc" 12 Sample.world0.

End SampleMore.

(** * Properties *)

Open Scope list_scope.

(** ** String helpers on sample inputs *)

Example last_segment_url :
  PyStr.last_segment "https://e4ftl01.cr.usgs.gov/GEDI/GEDI02_A.002/GEDI02_A_2020.h5"
  = "GEDI02_A_2020.h5".
Proof. reflexivity. Qed.

Example last_segment_no_slash : PyStr.last_segment "GEDI.h5" = "GEDI.h5".
Proof. reflexivity. Qed.

Example last_segment_trailing_slash : PyStr.last_segment "https://host/dir/" = EmptyString.
Proof. reflexivity. Qed.

Example contains_marker : PyStr.contains "GEDI" "xxGEDI02.h5" = true.
Proof. reflexivity. Qed.

Example contains_no_marker : PyStr.contains "GEDI" "index.html" = false.
Proof. reflexivity. Qed.

Example replace_ext : PyStr.replace ".h5" ".gpkg" "GEDI02_A.h5" = "GEDI02_A.gpkg".
Proof. reflexivity. Qed.

Example replace_all_occurrences : PyStr.replace ".h5" ".gpkg" "a.h5.h5x" = "a.gpkg.gpkgx".
Proof. reflexivity. Qed.

Example path_join_plain : PyStr.path_join "/data/out" "GEDI.h5" = "/data/out/GEDI.h5".
Proof. reflexivity. Qed.

Example path_join_empty : PyStr.path_join EmptyString "GEDI.h5" = "GEDI.h5".
Proof. reflexivity. Qed.

Example path_join_sep : PyStr.path_join "/data/out/" "GEDI.h5" = "/data/out/GEDI.h5".
Proof. reflexivity. Qed.

Example dirname_nested : PyStr.dirname "/data/out/new" = "/data/out".
Proof. reflexivity. Qed.

Example dirname_top : PyStr.dirname "/new" = "/".
Proof. reflexivity. Qed.

Example dirname_relative : PyStr.dirname "new" = EmptyString.
Proof. reflexivity. Qed.

Example parent_trailing_sep : PyStr.parent "/data/out/new/" = "/data/out".
Proof. reflexivity. Qed.

Example mkdir_needs_parent :
  os_mkdir 4096 "/data/new" Sample.world0 = Exc FileNotFoundError Sample.world0.
Proof. reflexivity. Qed.

Example mkdir_below_existing :
  fs (world_of (os_mkdir 4096 "/out/new" Sample.world0)) !! "/out/new" = Some (Dir 4096).
Proof. vm_compute. reflexivity. Qed.

Example split_roi : PyStr.split ","%char "10.0,-60.0,-5.0,-45.0" = ["10.0"; "-60.0"; "-5.0"; "-45.0"].
Proof. reflexivity. Qed.

Example decimal_length : Sample.decimal "1048576" = Some 1048576%Z.
Proof. reflexivity. Qed.

Example decimal_rejects : Sample.decimal "12a" = None.
Proof. reflexivity. Qed.

Example hostname_of_auth :
  Sample.hostname_of "https://urs.earthdata.nasa.gov/oauth/authorize"
  = Some SessionNASA.AUTH_HOST.
Proof. reflexivity. Qed.

Example hostname_of_data : Sample.hostname_of Sample.url1 = Some "data.example.org".
Proof. reflexivity. Qed.

(** ** The attempt trace is written by [download_granule] only *)

Create HintDb keeps.

Lemma keeps_ret {A} (a : A) : keeps_attempts (ret a).
Proof. by intros w. Qed.

Lemma keeps_raise {A} (e : Exn) : keeps_attempts (@raise A e).
Proof. by intros w. Qed.

Lemma keeps_bind {A B} (c : M A) (k : A → M B) :
  keeps_attempts c → (∀ a, keeps_attempts (k a)) → keeps_attempts (bind c k).
Proof.
  intros Hc Hk w. unfold bind. specialize (Hc w).
  destruct (c w) as [a w'|e w']; simpl in *; [|done].
  by rewrite Hk.
Qed.

Lemma keeps_if {A} (b : bool) (c1 c2 : M A) :
  keeps_attempts c1 → keeps_attempts c2 → keeps_attempts (if b then c1 else c2).
Proof. by destruct b. Qed.

Lemma keeps_print m : keeps_attempts (print m).
Proof. by intros w. Qed.

Lemma keeps_os_path_exists p : keeps_attempts (os_path_exists p).
Proof. by intros w. Qed.

Lemma keeps_os_path_getsize p : keeps_attempts (os_path_getsize p).
Proof. intros w. unfold os_path_getsize. by destruct (fs w !! p). Qed.

Lemma keeps_os_remove p : keeps_attempts (os_remove p).
Proof. intros w. unfold os_remove. by destruct (fs w !! p) as [[]|]. Qed.

Lemma keeps_open_wb p : keeps_attempts (open_wb p).
Proof. intros w. unfold open_wb. by destruct (fs w !! p) as [[]|]. Qed.

Lemma keeps_file_write p c : keeps_attempts (file_write p c).
Proof. by intros w. Qed.

Lemma keeps_session_get env u : keeps_attempts (session_get env u).
Proof. intros w. unfold session_get. by destruct (server env _ u). Qed.

Lemma keeps_int env s : keeps_attempts (int env s).
Proof. intros w. unfold int. by destruct (py_int env s). Qed.

#[export] Hint Resolve keeps_ret keeps_raise keeps_print keeps_os_path_exists
  keeps_os_path_getsize keeps_os_remove keeps_open_wb keeps_file_write
  keeps_session_get keeps_int : keeps.

Ltac keeps :=
  repeat first
    [ apply keeps_bind; [|intros ?]
    | apply keeps_if
    | solve [eauto with keeps]
    | match goal with |- keeps_attempts (match ?x with _ => _ end) => destruct x end ].

Lemma keeps_write_chunks p cs : keeps_attempts (write_chunks p cs).
Proof.
  induction cs as [|c cs IH]; simpl; [keeps|].
  apply keeps_bind; [by intros w|intros _].
  apply keeps_bind; [destruct c; keeps|intros _]. done.
Qed.

#[export] Hint Resolve keeps_write_chunks : keeps.

Lemma keeps_download s p : keeps_attempts (download s p).
Proof. unfold download. keeps. Qed.

Lemma keeps_precheck_file p n : keeps_attempts (precheck_file p n).
Proof. unfold precheck_file. keeps. Qed.

#[export] Hint Resolve keeps_download keeps_precheck_file : keeps.

(** Each call of [download_granule], however it ends, adds exactly one
    entry to the trace. *)
Lemma download_granule_attempts env self u cs w :
  attempts (world_of (download_granule env self u cs w)) = (attempts w ++ [u])%list.
Proof.
  unfold download_granule.
  set (rest := if negb _ then _ else _).
  assert (Hrest : keeps_attempts rest) by (subst rest; keeps).
  unfold bind at 1. simpl. by rewrite Hrest.
Qed.

Lemma download_granule_attempts_val env self u cs w b w' :
  download_granule env self u cs w = Val b w' → attempts w' = (attempts w ++ [u])%list.
Proof. intros H. by rewrite <- (download_granule_attempts env self u cs w), H. Qed.

(** ** download_granule *)

Ltac run := unfold bind, ret, raise, print; simpl.

(** Runs the code forward, using the equations at hand for every test
    and lookup it meets. *)
Ltac exec :=
  run;
  repeat (progress
    (simpl;
     try match goal with
         | H : ?l = _ |- context [?l] => rewrite H
         | |- context [(?z =? ?z)%Z] => rewrite Z.eqb_refl
         end));
  try done.

(** Streaming never raises by itself: it appends every chunk to the
    file and counts every byte pulled. *)
Lemma write_chunks_spec p cs : ∀ w c,
  fs w !! p = Some (File c) →
  ∃ w', write_chunks p cs w = Val tt w'
        ∧ fs w' = <[p := File (c ++ concat cs)]> (fs w)
        ∧ received w' = received w + length (concat cs)
        ∧ stdout w' = stdout w ∧ requests w' = requests w.
Proof.
  induction cs as [|chunk cs IH]; intros w c Hc.
  - eexists; split; [done|]. simpl. rewrite app_nil_r, insert_id by done.
    repeat split; lia.
  - destruct chunk as [|b chunk].
    + destruct (IH (add_received (length (@nil Byte.byte)) w) c Hc)
        as (w' & Hw & Hfs & Hr & Ho & Hq).
      exists w'. split; [exact Hw|]. simpl in *. repeat split; try done. lia.
    + destruct (IH (set_fs (λ m, <[p:=File (file_bytes (m !! p) ++ b :: chunk)]> m)
                       (add_received (length (b :: chunk)) w)) (c ++ b :: chunk))
        as (w' & Hw & Hfs & Hr & Ho & Hq).
      { simpl. rewrite lookup_insert_eq, Hc. done. }
      exists w'. split; [exact Hw|]. simpl in *. rewrite Hc in Hfs. simpl in Hfs.
      rewrite Hfs, insert_insert_eq, <- app_assoc. simpl.
      repeat split; try done. rewrite Hr, length_app. simpl. lia.
Qed.

Section DownloadGranule.

Variable env : Env.
Variable self : GEDIDownloader.

Lemma download_granule_skip u cs w r n node :
  PyStr.contains "GEDI" (PyStr.last_segment u) = true →
  announces env (length (requests w)) u r n →
  fs w !! target self u = Some node →
  Z.of_nat (node_size node) = n →
  download_granule env self u cs w
  = Val true (add_stdout (MsgExists (target self u)) (requested u w)).
Proof.
  intros Hm (Hs & Hok & l & Hl & Hn) Hf Hsz.
  unfold download_granule, session_get, precheck_file, os_path_exists,
    os_path_getsize, int, target in *.
  subst n. exec.
Qed.


(** Whenever [download_granule] returns [True], the file at the target
    path has the size the response announced. *)
Lemma download_granule_true_size u cs w w' :
  download_granule env self u cs w = Val true w' →
  ∃ r n node,
    announces env (length (requests w)) u r n
    ∧ fs w' !! target self u = Some node
    ∧ Z.of_nat (node_size node) = n.
Proof.
  unfold download_granule, announces, target. run. intros H.
  destruct (PyStr.contains _ _); simpl in H; [|done].
  unfold session_get in H. simpl in H.
  destruct (server env _ u) as [e|r] eqn:Hs; [done|].
  destruct (resp_ok r) eqn:Hok; simpl in H; [|done].
  destruct (resp_headers r !! _) as [l|] eqn:Hl; [|done].
  unfold int in H. destruct (py_int env l) as [n|] eqn:Hn; simpl in H; [|done].
  destruct (precheck_file _ _ _) as [b w1|]; [|done].
  destruct (if negb b then _ else _) as [[] w2|]; [|done].
  unfold os_path_getsize in H.
  destruct (fs w2 !! _) as [node|] eqn:Hnode; [|done].
  simpl in H.
  destruct (Z.eqb_spec (Z.of_nat (node_size node)) n); simpl in H; [|done].
  injection H as <-. exists r, n, node. eauto 10.
Qed.

(** C9: download_granule returns False, without pulling any byte of the
    body and without touching the file system, when the last path
    segment of the URL lacks the marker GEDI, when the response is not
    ok, or when it has no content-length header. *)
Theorem download_granule_rejects u cs w :
  (PyStr.contains "GEDI" (PyStr.last_segment u) = false
   ∨ ∃ r, server env (length (requests w)) u = GetReturns r
          ∧ (resp_ok r = false ∨ resp_headers r !! "content-length" = None)) →
  ∃ w', download_granule env self u cs w = Val false w'
        ∧ received w' = received w
        ∧ fs w' = fs w.
Proof.
  intros H. unfold download_granule, session_get. run.
  destruct (PyStr.contains _ _) eqn:Hm; simpl.
  - destruct H as [|(r & Hs & H)]; [done|]. rewrite Hs.
    destruct (resp_ok r) eqn:Hok; simpl; [|eauto].
    destruct H as [|Hl]; [done|]. rewrite Hl. eauto.
  - eauto.
Qed.

(** C4: when the file at the target path already has the announced
    size, download_granule returns True, and so does a second call; the
    second call (like the first) pulls no byte of the body and leaves
    the file system as it was. *)
Theorem download_granule_idempotent u cs w r1 r2 n node :
  PyStr.contains "GEDI" (PyStr.last_segment u) = true →
  fs w !! target self u = Some node →
  Z.of_nat (node_size node) = n →
  announces env (length (requests w)) u r1 n →
  announces env (S (length (requests w))) u r2 n →
  ∃ w1 w2,
    download_granule env self u cs w = Val true w1
    ∧ download_granule env self u cs w1 = Val true w2
    ∧ received w1 = received w ∧ received w2 = received w1
    ∧ fs w1 = fs w ∧ fs w2 = fs w.
Proof.
  intros Hm Hf Hsz H1 H2.
  pose proof (download_granule_skip u cs w r1 n node Hm H1 Hf Hsz) as E1.
  set (w1 := add_stdout _ _) in E1.
  assert (E2 : download_granule env self u cs w1
               = Val true (add_stdout (MsgExists (target self u)) (requested u w1))).
  { apply (download_granule_skip u cs w1 r2 n node); try done.
    subst w1. simpl. rewrite length_app. simpl.
    by replace (length (requests w) + 1) with (S (length (requests w))) by lia. }
  exists w1, (add_stdout (MsgExists (target self u)) (requested u w1)).
  by repeat split.
Qed.


Lemma precheck_file_stale p n w c :
  fs w !! p = Some (File c) →
  Z.of_nat (length c) ≠ n →
  precheck_file p n w = Val false (set_fs (delete p) (add_stdout (MsgCorrupted p) w)).
Proof.
  intros Hf Hne. unfold precheck_file, os_path_exists, os_path_getsize, os_remove.
  exec. destruct (Z.eqb_spec (Z.of_nat (length c)) n); [done|]. exec.
Qed.

Lemma download_fresh s p w :
  fs w !! p = None →
  ∃ w', download s p w
        = (if fault s then Exc RequestException w' else Val tt w')
        ∧ fs w' = <[p := File (concat (chunks s))]> (fs w)
        ∧ received w' = received w + length (concat (chunks s))
        ∧ stdout w' = stdout w ∧ requests w' = requests w.
Proof.
  intros Hf. unfold download, open_wb. run. rewrite Hf.
  destruct (write_chunks_spec p (chunks s) (set_fs <[p:=File []]> w) [])
    as (w' & -> & Hfs & Hr & Ho & Hq).
  { simpl. by rewrite lookup_insert_eq. }
  exists w'. simpl in *. rewrite insert_insert_eq in Hfs.
  split; [by destruct (fault s)|]. done.
Qed.

(** C5: when the file at the target path has a size other than the
    announced one, the pre-check deletes it and download_granule writes
    the streamed body to a fresh file, so that the file holds exactly
    the body; the call returns True exactly when that size equals the
    announced one (and raises if the stream breaks).  In every case a
    result of True means that the file on disk has the announced size. *)
Theorem download_granule_recovers u cs w r n c :
  PyStr.contains "GEDI" (PyStr.last_segment u) = true →
  announces env (length (requests w)) u r n →
  fs w !! target self u = Some (File c) →
  Z.of_nat (length c) ≠ n →
  let s := resp_iter_content r (cs * 1024) in
  let body := concat (chunks s) in
  precheck_file (target self u) n (requested u w)
  = Val false (set_fs (delete (target self u))
                 (add_stdout (MsgCorrupted (target self u)) (requested u w)))
  ∧ (∃ w', download_granule env self u cs w
           = (if fault s then Exc RequestException w'
              else Val (bool_decide (Z.of_nat (length body) = n)) w')
           ∧ fs w' = <[target self u := File body]> (fs w)
           ∧ received w' = received w + length body)
  ∧ (∀ w0 w1, download_granule env self u cs w0 = Val true w1 →
       ∃ r0 n0 node, announces env (length (requests w0)) u r0 n0
                     ∧ fs w1 !! target self u = Some node
                     ∧ Z.of_nat (node_size node) = n0).
Proof.
  intros Hm Ha Hf Hne s body.
  assert (Hpre := precheck_file_stale (target self u) n (requested u w) c Hf Hne).
  split; [done|]. split; [|intros w0 w1; apply download_granule_true_size].
  destruct Ha as (Hs & Hok & l & Hl & Hn).
  destruct (download_fresh s (target self u)
              (set_fs (delete (target self u))
                 (add_stdout (MsgCorrupted (target self u)) (requested u w))))
    as (w' & Hd & Hfs & Hr & _ & _).
  { simpl. apply lookup_delete_eq. }
  exists w'. simpl in Hfs, Hr. rewrite insert_delete_eq in Hfs.
  split; [|done].
  unfold download_granule, session_get, int. fold (target self u). run.
  rewrite Hm. simpl. rewrite Hs, Hok. simpl. rewrite Hl, Hn. simpl.
  unfold requested in Hpre. simpl in Hpre. rewrite Hpre. simpl.
  fold s. unfold requested in Hd. simpl in Hd. rewrite Hd.
  destruct (fault s); [done|].
  unfold os_path_getsize. rewrite Hfs, lookup_insert_eq. simpl.
  fold body. by destruct (Z.eqb_spec (Z.of_nat (length body)) n);
    [rewrite bool_decide_true|rewrite bool_decide_false].
Qed.

End DownloadGranule.

(** ** download_files *)

Section DownloadFiles.

Variable env : Env.
Variable self : GEDIDownloader.

Lemma download_files_cons g rest w w' :
  download_one env self g w = Val tt w' →
  download_files env self (g :: rest) w
  = (download_files env self rest ;; ret (g :: rest)) w'.
Proof.
  intros H. unfold download_files. simpl. run. rewrite H.
  by destruct (for_each _ rest w').
Qed.

Lemma download_one_failed g w w1 :
  download_granule env self (g_url g) 128 w = Val false w1 →
  download_one env self g w
  = (retries <- retry_loop env self g 3 ;;
     if Nat.eqb retries 0 then print (MsgFailSkipping g) else ret tt)
      (add_stdout (MsgFailRetrying g) w1).
Proof. intros H. unfold download_one, bind at 1. by rewrite H. Qed.

(** Failed retries only count the loop down. *)
Lemma retry_loop_after_failures g k r w w' :
  retries_fail env self g k r w w' →
  retry_loop env self g r w = retry_loop env self g (r - k) w'
  ∧ (k ≤ r)%nat
  ∧ attempts w' = attempts w ++ replicate k (g_url g).
Proof.
  induction 1 as [r w|k r w w1 w2 Hd _ (IH & Hle & Hat)].
  - rewrite Nat.sub_0_r, app_nil_r. auto with lia.
  - split; [|split; [lia|]].
    + simpl. run. unfold print in Hd. by rewrite Hd.
    + apply download_granule_attempts_val in Hd. simpl in Hd.
      rewrite Hat, Hd, <- app_assoc. done.
Qed.

(** The calls the retry loop makes, however it ends: at most [r]. *)
Lemma retry_loop_calls g r : ∀ w,
  ∃ n, (n ≤ r)%nat
       ∧ attempts (world_of (retry_loop env self g r w))
         = attempts w ++ replicate n (g_url g).
Proof.
  induction r as [|r IH]; intros w.
  - exists 0. by rewrite app_nil_r.
  - simpl. unfold bind at 1, print at 1. unfold bind at 1.
    pose proof (download_granule_attempts env self (g_url g) 128
                  (add_stdout (MsgRetry (S r)) w)) as Hd.
    destruct (download_granule _ _ _ _ _) as [[] w1|e w1]; simpl in Hd.
    + exists 1. split; [lia|done].
    + destruct (IH w1) as (n & Hn & Hat).
      exists (S n). split; [lia|]. rewrite Hat, Hd, <- app_assoc. done.
    + exists 1. split; [lia|done].
Qed.

(** One iteration of the batch loop calls [download_granule] between
    one and four times, however it ends. *)
Lemma download_one_calls g w :
  ∃ n, (1 ≤ n ≤ 4)%nat
       ∧ attempts (world_of (download_one env self g w))
         = attempts w ++ replicate n (g_url g).
Proof.
  pose proof (download_granule_attempts env self (g_url g) 128 w) as Hd.
  destruct (download_granule env self (g_url g) 128 w) as [[] w1|e w1] eqn:E;
    simpl in Hd.
  - exists 1. split; [lia|]. unfold download_one, bind. by rewrite E.
  - rewrite (download_one_failed _ _ _ E). unfold bind at 1.
    destruct (retry_loop_calls g 3 (add_stdout (MsgFailRetrying g) w1)) as (n & Hn & Hat).
    exists (S n). split; [lia|].
    assert (attempts (world_of
              match retry_loop env self g 3 (add_stdout (MsgFailRetrying g) w1) with
              | Val a w' => (if (a =? 0)%nat then print (MsgFailSkipping g) else ret tt) w'
              | Exc e w' => Exc e w'
              end)
            = attempts (world_of (retry_loop env self g 3 (add_stdout (MsgFailRetrying g) w1))))
      as ->.
    { destruct (retry_loop _ _ _ _ _) as [a w'|]; [|done]. by destruct (a =? 0)%nat. }
    rewrite Hat. simpl. rewrite Hd, <- app_assoc. done.
  - exists 1. split; [lia|]. unfold download_one, bind. by rewrite E.
Qed.

(** A granule whose every attempt returns [False] fails any number of
    retries in a row. *)
Lemma always_returns_false_retries g r w :
  always_returns_false env self g → ∃ w', retries_fail env self g r r w w'.
Proof.
  intros Hf. revert w. induction r as [|r IH]; intros w.
  - eexists. constructor.
  - destruct (Hf (add_stdout (MsgRetry (S r)) w)) as [w1 H1].
    destruct (IH w1) as [w2 H2].
    exists w2. by econstructor.
Qed.

(** The iteration for a granule whose four attempts return [False]. *)
Lemma download_one_exhausted g w w1 w2 :
  download_granule env self (g_url g) 128 w = Val false w1 →
  retries_fail env self g 3 3 (add_stdout (MsgFailRetrying g) w1) w2 →
  download_one env self g w = Val tt (add_stdout (MsgFailSkipping g) w2)
  ∧ attempts (add_stdout (MsgFailSkipping g) w2) = attempts w ++ replicate 4 (g_url g).
Proof.
  intros H1 Hk.
  destruct (retry_loop_after_failures _ _ _ _ _ Hk) as (Hloop & _ & Hat).
  apply download_granule_attempts_val in H1 as Hat1. simpl in Hat.
  split.
  - rewrite (download_one_failed _ _ _ H1). unfold bind. by rewrite Hloop.
  - simpl. rewrite Hat, Hat1, <- app_assoc. done.
Qed.

(** A batch of granules whose every attempt returns [False]: four calls
    for each, in the order of the list, and the list is returned. *)
Lemma download_files_all_exhausted gs : ∀ w,
  (∀ g, g ∈ gs → always_returns_false env self g) →
  ∃ w', download_files env self gs w = Val gs w'
        ∧ attempts w' = attempts w ++ concat ((λ g, replicate 4 (g_url g)) <$> gs).
Proof.
  induction gs as [|g gs IH]; intros w Hall.
  - exists w. split; [done|]. by rewrite app_nil_r.
  - assert (Hg : always_returns_false env self g) by (apply Hall; left).
    destruct (Hg w) as [w1 H1].
    destruct (always_returns_false_retries g 3 (add_stdout (MsgFailRetrying g) w1) Hg)
      as [w2 H2].
    destruct (download_one_exhausted g w w1 w2 H1 H2) as [Hone Hat].
    destruct (IH (add_stdout (MsgFailSkipping g) w2)) as (w' & Hrest & Hat').
    { intros g' Hin. apply Hall. by right. }
    exists w'. split.
    + rewrite (download_files_cons _ _ _ _ Hone). unfold bind. by rewrite Hrest.
    + rewrite Hat', Hat. rewrite fmap_cons. simpl. by rewrite <- app_assoc.
Qed.

(** C2, as the code has it: one iteration of the batch loop calls
    download_granule between one and four times.  When the first
    attempt and the three retries all return False, the iteration ends
    after exactly four calls and the batch goes on with the next
    granule; a retry that returns True ends the iteration at once.  An
    attempt that raises is not retried: the exception ends the whole
    batch.  A batch of granules whose attempts always return False makes
    exactly four calls per granule and returns its list. *)
Theorem download_files_retry_budget g rest w :
  (∃ n, (1 ≤ n ≤ 4)%nat
        ∧ attempts (world_of (download_one env self g w))
          = attempts w ++ replicate n (g_url g))
  ∧ (∀ w1 w2,
       download_granule env self (g_url g) 128 w = Val false w1 →
       retries_fail env self g 3 3 (add_stdout (MsgFailRetrying g) w1) w2 →
       download_one env self g w = Val tt (add_stdout (MsgFailSkipping g) w2)
       ∧ attempts (world_of (download_one env self g w))
         = attempts w ++ replicate 4 (g_url g)
       ∧ download_files env self (g :: rest) w
         = (download_files env self rest ;; ret (g :: rest))
             (add_stdout (MsgFailSkipping g) w2))
  ∧ (∀ w1 k w2 w3,
       download_granule env self (g_url g) 128 w = Val false w1 →
       retries_fail env self g k 3 (add_stdout (MsgFailRetrying g) w1) w2 →
       (k < 3)%nat →
       download_granule env self (g_url g) 128 (add_stdout (MsgRetry (3 - k)) w2)
       = Val true w3 →
       download_one env self g w = Val tt w3
       ∧ attempts (world_of (download_one env self g w))
         = attempts w ++ replicate (S (S k)) (g_url g)
       ∧ download_files env self (g :: rest) w
         = (download_files env self rest ;; ret (g :: rest)) w3)
  ∧ (∀ e w1,
       download_granule env self (g_url g) 128 w = Exc e w1 →
       download_files env self (g :: rest) w = Exc e w1
       ∧ attempts (world_of (download_files env self (g :: rest) w))
         = attempts w ++ [g_url g])
  ∧ (∀ w1 k w2 e w3,
       download_granule env self (g_url g) 128 w = Val false w1 →
       retries_fail env self g k 3 (add_stdout (MsgFailRetrying g) w1) w2 →
       (k < 3)%nat →
       download_granule env self (g_url g) 128 (add_stdout (MsgRetry (3 - k)) w2)
       = Exc e w3 →
       download_files env self (g :: rest) w = Exc e w3
       ∧ attempts (world_of (download_files env self (g :: rest) w))
         = attempts w ++ replicate (S (S k)) (g_url g))
  ∧ ((∀ g', g' ∈ g :: rest → always_returns_false env self g') →
     ∃ w', download_files env self (g :: rest) w = Val (g :: rest) w'
           ∧ attempts w'
             = attempts w ++ concat ((λ g', replicate 4 (g_url g')) <$> g :: rest)).
Proof.
  assert (Hcount : ∀ w1 k w2 w3,
            attempts w1 = attempts w ++ [g_url g] →
            attempts w2 = attempts (add_stdout (MsgFailRetrying g) w1) ++ replicate k (g_url g) →
            attempts w3 = attempts (add_stdout (MsgRetry (3 - k)) w2) ++ [g_url g] →
            attempts w3 = attempts w ++ replicate (S (S k)) (g_url g)).
  { intros w1 k w2 w3 H1 H2 H3. simpl in H2, H3.
    rewrite H3, H2, H1, <- !app_assoc. f_equal.
    change [g_url g] with (replicate 1 (g_url g)).
    rewrite <- !replicate_add. f_equal. lia. }
  split; [apply download_one_calls|].
  split; [|split; [|split; [|split]]].
  - intros w1 w2 H1 Hk.
    destruct (download_one_exhausted g w w1 w2 H1 Hk) as [Hone Hat].
    split; [done|]. split; [by rewrite Hone|].
    by apply download_files_cons.
  - intros w1 k w2 w3 H1 Hk Hlt H3.
    destruct (retry_loop_after_failures _ _ _ _ _ Hk) as (Hloop & _ & Hat).
    assert (Hone : download_one env self g w = Val tt w3).
    { rewrite (download_one_failed _ _ _ H1).
      unfold bind at 1. rewrite Hloop.
      destruct (3 - k) as [|r] eqn:Hr; [lia|].
      simpl. unfold bind at 1 2, print at 1. by rewrite H3. }
    split; [done|]. split; [|by apply download_files_cons].
    rewrite Hone. simpl.
    apply (Hcount w1 k w2 w3); [|done|].
    + by apply download_granule_attempts_val in H1.
    + by apply download_granule_attempts_val in H3.
  - intros e w1 H1.
    assert (Hfiles : download_files env self (g :: rest) w = Exc e w1).
    { unfold download_files. simpl. unfold bind at 1 2.
      unfold download_one, bind at 1. by rewrite H1. }
    split; [done|]. rewrite Hfiles. simpl.
    by rewrite <- (download_granule_attempts env self (g_url g) 128 w), H1.
  - intros w1 k w2 e w3 H1 Hk Hlt H3.
    destruct (retry_loop_after_failures _ _ _ _ _ Hk) as (Hloop & _ & Hat).
    assert (Hfiles : download_files env self (g :: rest) w = Exc e w3).
    { unfold download_files. simpl. unfold bind at 1 2.
      rewrite (download_one_failed _ _ _ H1).
      unfold bind at 1. rewrite Hloop.
      destruct (3 - k) as [|r] eqn:Hr; [lia|].
      simpl. unfold bind at 1 2, print at 1. by rewrite H3. }
    split; [done|]. rewrite Hfiles. simpl.
    apply (Hcount w1 k w2 w3); [|done|].
    + by apply download_granule_attempts_val in H1.
    + by rewrite <- (download_granule_attempts env self (g_url g) 128
                      (add_stdout (MsgRetry (3 - k)) w2)), H3.
  - apply download_files_all_exhausted.
Qed.

End DownloadFiles.

(** The sentence of C2 about attempts that fail does not hold when an
    attempt fails by raising: with no connection, the first granule is
    tried once, no retry is made, and the batch ends with the exception
    before the second granule is tried. *)
Lemma download_files_raising_attempt_not_retried :
  ∃ w',
    download_files SampleMore.env_offline Sample.dl [Sample.g1; Sample.g2] Sample.world0
    = Exc RequestException w'
    ∧ attempts w' = [Sample.url1].
Proof. eexists. split; vm_compute; reflexivity. Qed.

(** ** run_pipeline *)

Section RunPipeline.

Variable env : Env.
Variables Coord Gdf : Type.
Variable find :
  string → string → string → string → bool → list Coord → string → M (list Granule).
Variable subset :
  list Coord → string → string → option (list string) → option (list string) →
  option Gdf → string → M unit.
Variable self : GEDIPipeline Coord Gdf.

Lemma for_granules_cons g rest w wc :
  cancel_requested self w = Val false wc →
  for_granules env subset self (g :: rest) w
  = (process_granule env subset self g ;; for_granules env subset self rest) wc.
Proof. intros H. simpl. unfold bind at 1. by rewrite H. Qed.


(** The loop over a concatenation is the loop over its first part,
    continued over the second when the first ran to its end. *)
Lemma for_granules_app l1 l2 w :
  for_granules env subset self (l1 ++ l2) w
  = match for_granules env subset self l1 w with
    | Val Exhausted w' => for_granules env subset self l2 w'
    | o => o
    end.
Proof.
  revert w. induction l1 as [|g l1 IH]; intros w; [done|].
  simpl. unfold bind.
  destruct (cancel_requested self w) as [[] wc|]; [done| |done].
  destruct (process_granule env subset self g wc) as [[] wp|]; [|done].
  apply IH.
Qed.

(** A first download that returns [False] ends the iteration, and the
    run, with a TypeError: line 101 iterates over the integer 3. *)
Lemma process_granule_failed_download g w w1 :
  fs w !! artifact_path self g = None →
  download_granule env (downloader self) (g_url g) 128 w = Val false w1 →
  process_granule env subset self g w
  = Exc TypeError (add_stdout (MsgFailRetrying g) w1).
Proof.
  intros Ha Hd. unfold process_granule, os_path_exists. fold (artifact_path self g).
  unfold bind at 1. rewrite Ha, bool_decide_false by (by intros [? ?]).
  unfold bind at 1. by rewrite Hd.
Qed.


(** C10, as the code has it: with cancel_event None the check of line
    89 returns False without raising and without polling anything, and
    the loop never takes the break.  The granules are taken in order:
    a granule reaches the per-granule steps as soon as the steps of all
    granules before it have returned, and when the steps of one raise,
    the run ends there with that exception.  If the steps of every
    granule return, run_pipeline returns the discovered list. *)
Theorem run_pipeline_without_event gs w :
  cancel_event self = None →
  cancel_requested self w = Val false w
  ∧ (∀ w', for_granules env subset self gs w ≠ Val Broke w')
  ∧ (∀ pre g post w1,
       gs = pre ++ g :: post →
       for_each (process_granule env subset self) pre w = Val tt w1 →
       for_granules env subset self gs w
       = (process_granule env subset self g ;; for_granules env subset self post) w1
       ∧ ∀ e w2,
           process_granule env subset self g w1 = Exc e w2 →
           for_granules env subset self gs w = Exc e w2)
  ∧ for_granules env subset self gs w
    = (for_each (process_granule env subset self) gs ;; ret Exhausted) w
  ∧ run_pipeline env find subset self w
    = (all_granules <- finder_find find self (out_directory self) ;;
       for_each (process_granule env subset self) all_granules ;;
       ret all_granules) w
  ∧ (∀ w0 w',
       finder_find find self (out_directory self) w = Val gs w0 →
       for_each (process_granule env subset self) gs w0 = Val tt w' →
       run_pipeline env find subset self w = Val gs w').
Proof.
  intros Hev.
  assert (Hc : ∀ w, cancel_requested self w = Val false w).
  { intros w'. unfold cancel_requested. by rewrite Hev. }
  assert (Hloop : ∀ gs w, for_granules env subset self gs w
            = (for_each (process_granule env subset self) gs ;; ret Exhausted) w).
  { clear gs w. induction gs as [|g gs IH]; intros w; [done|].
    rewrite (for_granules_cons g gs w w (Hc w)). simpl. unfold bind.
    destruct (process_granule env subset self g w) as [[] wp|]; [|done].
    rewrite IH. done. }
  assert (Hrun : run_pipeline env find subset self w
    = (all_granules <- finder_find find self (out_directory self) ;;
       for_each (process_granule env subset self) all_granules ;;
       ret all_granules) w).
  { unfold run_pipeline, bind.
    destruct (finder_find find self _ w) as [all w0|]; [|done].
    rewrite Hloop. unfold bind.
    by destruct (for_each _ all w0). }
  split; [done|]. split; [|split; [|split; [done|split; [done|]]]].
  - intros w'. rewrite Hloop. unfold bind.
    by destruct (for_each _ gs w).
  - intros pre g post w1 -> Hpre.
    assert (E : for_granules env subset self (pre ++ g :: post) w
                = (process_granule env subset self g ;;
                   for_granules env subset self post) w1).
    { rewrite for_granules_app, (Hloop pre). unfold bind at 1. rewrite Hpre.
      simpl. unfold bind at 1. by rewrite (Hc w1). }
    split; [done|].
    intros e w2 Hg. rewrite E. unfold bind. by rewrite Hg.
  - intros w0 w' Hfind Hsteps. rewrite Hrun. unfold bind.
    by rewrite Hfind, Hsteps.
Qed.

(** C8: when a granule has been downloaded and the subsetter has
    returned, leaving the raw file in place, the per-granule steps end
    with the raw file removed if keep_original_file is unset, and with
    every file as the subsetter left it if the flag is set; nothing else
    is touched, and the loop takes up the next granule in that world. *)
Theorem raw_file_cleanup g w w1 w2 c :
  fs w !! artifact_path self g = None →
  download_granule env (downloader self) (g_url g) 128 w = Val true w1 →
  subsetter_subset subset self (raw_path self g) w1 = Val tt w2 →
  fs w2 !! raw_path self g = Some (File c) →
  let w' := if keep_original_file self then w2
            else set_fs (delete (raw_path self g)) w2 in
  process_granule env subset self g w = Val tt w'
  ∧ fs (world_of (process_granule env subset self g w)) !! raw_path self g
    = (if keep_original_file self then Some (File c) else None)
  ∧ (∀ q, q ≠ raw_path self g →
          fs (world_of (process_granule env subset self g w)) !! q = fs w2 !! q)
  ∧ ∀ w0, cancel_requested self w0 = Val false w →
          for_granules env subset self [g] w0 = Val Exhausted w'
          ∧ ∀ rest, for_granules env subset self (g :: rest) w0
                    = for_granules env subset self rest w'.
Proof.
  intros Ha Hd Hs Hf w'.
  assert (Hp : process_granule env subset self g w = Val tt w').
  { unfold process_granule, os_path_exists.
    fold (artifact_path self g) (raw_path self g).
    unfold bind at 1. rewrite Ha, bool_decide_false by (by intros [? ?]).
    unfold bind at 1. rewrite Hd. simpl. unfold bind at 1. rewrite Hs.
    subst w'. destruct (keep_original_file self); simpl; [done|].
    unfold os_remove. by rewrite Hf. }
  split; [done|]. split; [|split].
  - rewrite Hp. subst w'. simpl.
    destruct (keep_original_file self); [done|]. simpl. apply lookup_delete_eq.
  - intros q Hq. rewrite Hp. subst w'. simpl.
    destruct (keep_original_file self); [done|].
    simpl. by apply lookup_delete_ne.
  - intros w0 Hc.
    assert (E : ∀ rest, for_granules env subset self (g :: rest) w0
                = for_granules env subset self rest w').
    { intros rest. rewrite (for_granules_cons g rest w0 w Hc).
      unfold bind. by rewrite Hp. }
    split; [|done]. by rewrite E.
Qed.

End RunPipeline.

(** The sentence of C10 about every discovered granule does not hold:
    with no cancellation event and no connection, the steps of the
    first granule raise, the run ends there, and the second discovered
    granule is never attempted. *)
Lemma run_pipeline_without_event_stops_at_exception :
  cancel_event (Sample.pipeline false None) = None
  ∧ ∃ w',
      run_pipeline SampleMore.env_offline Sample.find_two Sample.subset_writes
        (Sample.pipeline false None) Sample.world0
      = Exc RequestException w'
      ∧ process_granule SampleMore.env_offline Sample.subset_writes
          (Sample.pipeline false None) Sample.g1 Sample.world0
        = Exc RequestException w'
      ∧ attempts w' = [Sample.url1]
      ∧ Sample.url2 ∉ attempts w'.
Proof.
  split; [reflexivity|]. eexists.
  split; [vm_compute; reflexivity|].
  split; [vm_compute; reflexivity|].
  split; [vm_compute; reflexivity|].
  vm_compute. intros H. apply list_elem_of_singleton in H. discriminate.
Qed.

(** ** SessionNASA.rebuild_auth *)

Section RebuildAuth.

Import SessionNASA.

Variable hostname : string → option string.

(** X29: rebuild_auth removes the Authorization header exactly when it
    is present, the two hosts differ and neither of them is the trusted
    host; it changes no other header and not the URL, and a redirect
    from or to the trusted host leaves the request as it was. *)
Theorem rebuild_auth_strips req original_url :
  let req' := rebuild_auth hostname req original_url in
  let present := is_Some (headers req !! "Authorization") in
  (present ∧ headers req' !! "Authorization" = None
   ↔ present
     ∧ hostname original_url ≠ hostname (url req)
     ∧ hostname (url req) ≠ Some AUTH_HOST
     ∧ hostname original_url ≠ Some AUTH_HOST)
  ∧ (∀ k, k ≠ "Authorization" → headers req' !! k = headers req !! k)
  ∧ url req' = url req
  ∧ (hostname original_url = Some AUTH_HOST ∨ hostname (url req) = Some AUTH_HOST →
     req' = req).
Proof.
  unfold rebuild_auth. simpl.
  destruct (decide (is_Some (headers req !! "Authorization"))) as [Hp|Hp].
  - rewrite (bool_decide_true _ Hp).
    destruct (decide (hostname original_url ≠ hostname (url req))) as [H1|H1];
    destruct (decide (hostname (url req) ≠ Some AUTH_HOST)) as [H2|H2];
    destruct (decide (hostname original_url ≠ Some AUTH_HOST)) as [H3|H3];
    rewrite ?(bool_decide_true _ H1), ?(bool_decide_false _ H1),
      ?(bool_decide_true _ H2), ?(bool_decide_false _ H2),
      ?(bool_decide_true _ H3), ?(bool_decide_false _ H3); simpl;
    (split; [|split; [|split]]);
    try done;
    try (intros k Hk; by rewrite lookup_delete_ne);
    try (intros [?|?]; congruence);
    try (split; [intros [_ Hn]; destruct Hp as [v Hv]; congruence
                |intros (_ & ? & ? & ?); done]).
    split; [intros _; done|intros _; split; [done|apply lookup_delete_eq]].
  - rewrite (bool_decide_false _ Hp).
    split; [|done]. split; intros [? _]; done.
Qed.

End RebuildAuth.

(** C6 fails on the code: a request redirected from the trusted host
    to a third-party host still carries the Authorization header after
    rebuild_auth, although the claim, and the docstring of the method,
    say that such a redirect must not carry the credentials. *)
Lemma rebuild_auth_keeps_header_leaving_auth_host :
  let req := {| SessionNASA.headers := {[ "Authorization" := "Basic dXNlcjpzZWNyZXQ=" ]};
                SessionNASA.url := "https://cdn.example.org/GEDI02_A_001.h5" |} in
  let original_url := "https://urs.earthdata.nasa.gov/oauth/authorize" in
  Sample.hostname_of original_url = Some SessionNASA.AUTH_HOST
  ∧ Sample.hostname_of (SessionNASA.url req) = Some "cdn.example.org"
  ∧ ¬ (SessionNASA.headers (SessionNASA.rebuild_auth Sample.hostname_of req original_url)
         !! "Authorization" = None).
Proof. repeat split. vm_compute. discriminate. Qed.

(** The condition the code tests and the rule that a redirect leaving
    the trusted host carries no header exclude each other: no redirect
    handler strips only between two hosts that are not the trusted one
    and also strips on leaving the trusted host. *)
Lemma strip_rule_and_leaving_auth_host_conflict
  (f : SessionNASA.PreparedRequest → string → SessionNASA.PreparedRequest) :
  ¬ ((∀ req original_url,
        is_Some (SessionNASA.headers req !! "Authorization")
        ∧ SessionNASA.headers (f req original_url) !! "Authorization" = None
        ↔ is_Some (SessionNASA.headers req !! "Authorization")
          ∧ Sample.hostname_of original_url ≠ Sample.hostname_of (SessionNASA.url req)
          ∧ Sample.hostname_of (SessionNASA.url req) ≠ Some SessionNASA.AUTH_HOST
          ∧ Sample.hostname_of original_url ≠ Some SessionNASA.AUTH_HOST)
     ∧ (∀ req original_url,
          Sample.hostname_of original_url = Some SessionNASA.AUTH_HOST →
          Sample.hostname_of (SessionNASA.url req) ≠ Some SessionNASA.AUTH_HOST →
          SessionNASA.headers (f req original_url) !! "Authorization" = None)).
Proof.
  intros [Hiff Hleave].
  set (req := {| SessionNASA.headers := {[ "Authorization" := "Basic dXNlcjpzZWNyZXQ=" ]};
                 SessionNASA.url := "https://cdn.example.org/GEDI02_A_001.h5" |}).
  set (o := "https://urs.earthdata.nasa.gov/oauth/authorize").
  assert (Hnone := Hleave req o eq_refl ltac:(vm_compute; discriminate)).
  destruct (proj1 (Hiff req o)) as (_ & _ & _ & Hne).
  - split; [|exact Hnone]. eexists. reflexivity.
  - by apply Hne.
Qed.

(** ** GEDIPipeline.__init__ *)

Section Init.

Variable env : Env.
Variables Coord Gdf : Type.
Variable py_float : string → option Coord.
Variable gp_read_file : string → M Gdf.
Variable crs_is_none : Gdf → bool.
Variable set_crs : Gdf → M Gdf.
Variable to_crs : Gdf → M Gdf.
Variable total_bounds : Gdf → M (Coord * Coord * Coord * Coord).

Lemma init_collaborators_fields
  out prod ver ds de sds beams rm pl keep ce rp gdf parsed w
  (p : GEDIPipeline Coord Gdf) w' :
  init_collaborators env out prod ver ds de sds beams rm pl keep ce rp gdf parsed w
  = Val p w' →
  parsed = Some (roi p) ∧ roi_gdf p = gdf.
Proof.
  unfold init_collaborators, GEDIDownloader_init, SessionNASA._load_credentials.
  destruct parsed as [r|]; [|done]. run.
  destruct (netrc_or_prompt env _) as [creds w1|]; [|done]. simpl.
  destruct (negb _); simpl; [|intros [= <- <-]; done].
  destruct (os_mkdir _ _ _) as [[] w2|]; [|done].
  intros [= <- <-]; done.
Qed.

(** C3, as the code has it: when the polygon file cannot be read or
    reprojected, __init__ prints the failure, leaves roi_gdf at None and
    goes on with whatever the roi argument gave.  If roi was neither a
    list nor a string, nothing was assigned and __init__ raises
    AttributeError before any collaborator is built; if it was, every
    pipeline that __init__ returns carries that ROI. *)
Theorem init_polygon_unreadable
  out prod ver ds de roi_arg sds beams rm pl keep ce path parsed e w w' :
  path ≠ EmptyString →
  roi_of_arg py_float roi_arg w = Val parsed w →
  read_polygon gp_read_file crs_is_none set_crs to_crs path w = Exc e w' →
  let init :=
    GEDIPipeline_init env py_float gp_read_file crs_is_none set_crs to_crs
      total_bounds out prod ver ds de roi_arg sds beams rm pl keep ce (Some path) in
  init w
  = init_collaborators env out prod ver ds de sds beams rm pl keep ce (Some path)
      None parsed (add_stdout MsgRoiReadFailed w')
  ∧ (parsed = None → init w = Exc AttributeError (add_stdout MsgRoiReadFailed w'))
  ∧ (∀ (p : GEDIPipeline Coord Gdf) w'', init w = Val p w'' → parsed = Some (roi p) ∧ roi_gdf p = None).
Proof.
  intros Hpath Hroi Hread init.
  assert (E : init w
    = init_collaborators env out prod ver ds de sds beams rm pl keep ce (Some path)
        None parsed (add_stdout MsgRoiReadFailed w')).
  { unfold init, GEDIPipeline_init. unfold bind at 1. rewrite Hroi.
    destruct path as [|a path]; [done|]. simpl.
    unfold bind at 1, load_roi_polygon, try_except, bind at 1.
    by rewrite Hread. }
  split; [done|]. split.
  - intros ->. by rewrite E.
  - intros p w'' Hp. rewrite E in Hp. by apply init_collaborators_fields in Hp.
Qed.

End Init.

(** The sentence of C3 about a ROI supplied next to the polygon does not
    hold: with a list ROI and an unreadable polygon file, __init__
    returns a pipeline that carries the list as its ROI, and
    run_pipeline on it goes on to discovery and downloads both
    granules. *)
Lemma init_unreadable_polygon_still_runs :
  ∃ p w1 w2,
    GEDIPipeline_init Sample.env_serving (λ _, None) Sample.unreadable
      (λ _, true) ret ret Sample.bounds_of
      "/out" "GEDI02_A" "002" "2020.01.01" "2020.12.31"
      (RoiList [Num 10; Num (-60); Num (-5); Num (-45)]%Z)
      None None false false false None (Some "roi.shp") Sample.world0
    = Val p w1
    ∧ roi p = [10; -60; -5; -45]%Z
    ∧ roi_gdf p = None
    ∧ run_pipeline Sample.env_serving Sample.find_two Sample.subset_writes p w1
      = Val [Sample.g1; Sample.g2] w2
    ∧ requests w2 = [Sample.url1; Sample.url2].
Proof.
  eexists _, _, _. split; [vm_compute; reflexivity|].
  split; [reflexivity|]. split; [reflexivity|].
  split; [vm_compute; reflexivity|reflexivity].
Qed.

(** ** The failed-download branch of run_pipeline *)

(** C1 fails on the code.  The server refuses the first two requests and
    would serve the third; the pipeline discovers two granules.  The
    first download returns False, and run_pipeline ends with TypeError
    after a single attempt: no retry is made and the second granule is
    never started. *)
Theorem run_pipeline_aborts_on_failed_download :
  ∃ w',
    run_pipeline Sample.env_recovering Sample.find_two Sample.subset_writes
      (Sample.pipeline false None) Sample.world0
    = Exc TypeError w'
    ∧ attempts w' = [Sample.url1]
    ∧ stdout w' = [MsgInvalidCredentials; MsgFailRetrying Sample.g1].
Proof. eexists. split; [vm_compute; reflexivity|]. by split. Qed.

(** ** The properties on the sample instances *)

Ltac compute_eq := vm_compute; reflexivity.

Lemma sample_announces_5 k u :
  announces Sample.env_serving k u (Sample.response (Some "5") [Sample.bytes 2; []; Sample.bytes 3]) 5.
Proof. repeat split. by exists "5". Qed.

Lemma download_granule_rejects_witness :
  (∃ w', download_granule Sample.env_serving Sample.dl "https://data.example.org/index.html" 128 Sample.world0
         = Val false w'
         ∧ received w' = received Sample.world0 ∧ fs w' = fs Sample.world0)
  ∧ (∃ w', download_granule Sample.env_refusing Sample.dl Sample.url1 128 Sample.world0
           = Val false w'
           ∧ received w' = received Sample.world0 ∧ fs w' = fs Sample.world0)
  ∧ (∃ w', download_granule Sample.env_unsized Sample.dl Sample.url1 128 Sample.world0
           = Val false w'
           ∧ received w' = received Sample.world0 ∧ fs w' = fs Sample.world0).
Proof.
  split; [|split].
  - apply download_granule_rejects. left. reflexivity.
  - apply download_granule_rejects. right. exists Sample.forbidden.
    split; [reflexivity|left; reflexivity].
  - apply download_granule_rejects. right.
    exists (Sample.response None [Sample.bytes 5]).
    split; [reflexivity|right; reflexivity].
Defined.

Lemma download_granule_idempotent_witness :
  let w := Sample.with_file "/out/GEDI02_A_001.h5" 5 Sample.world0 in
  ∃ w1 w2,
    download_granule Sample.env_serving Sample.dl Sample.url1 128 w = Val true w1
    ∧ download_granule Sample.env_serving Sample.dl Sample.url1 128 w1 = Val true w2
    ∧ received w1 = received w ∧ received w2 = received w1
    ∧ fs w1 = fs w ∧ fs w2 = fs w.
Proof.
  intros w.
  eapply (download_granule_idempotent Sample.env_serving Sample.dl Sample.url1 128 w
            _ _ 5 (File (Sample.bytes 5))).
  - reflexivity.
  - compute_eq.
  - reflexivity.
  - apply sample_announces_5.
  - apply sample_announces_5.
Defined.

Lemma download_granule_recovers_witness :
  let w := Sample.with_file "/out/GEDI02_A_001.h5" 7 Sample.world0 in
  (∃ w', download_granule Sample.env_serving Sample.dl Sample.url1 128 w = Val true w'
         ∧ fs w' = <["/out/GEDI02_A_001.h5" := File (Sample.bytes 5)]> (fs w)
         ∧ received w' = 5
         ∧ ∃ r n node, announces Sample.env_serving 0 Sample.url1 r n
                       ∧ fs w' !! "/out/GEDI02_A_001.h5" = Some node
                       ∧ Z.of_nat (node_size node) = n)
  ∧ (∃ w', download_granule Sample.env_truncating Sample.dl Sample.url1 128 w = Val false w'
           ∧ fs w' = <["/out/GEDI02_A_001.h5" := File (Sample.bytes 3)]> (fs w)).
Proof.
  intros w. split.
  - destruct (download_granule_recovers Sample.env_serving Sample.dl Sample.url1 128 w
                (Sample.response (Some "5") [Sample.bytes 2; []; Sample.bytes 3]) 5
                (Sample.bytes 7)) as (_ & (w' & Hd & Hfs & Hr) & Htrue).
    + reflexivity.
    + apply sample_announces_5.
    + compute_eq.
    + discriminate.
    + exists w'. split; [exact Hd|]. split; [exact Hfs|]. split; [exact Hr|].
      exact (Htrue w w' Hd).
  - destruct (download_granule_recovers Sample.env_truncating Sample.dl Sample.url1 128 w
                (Sample.response (Some "5") [Sample.bytes 3]) 5
                (Sample.bytes 7)) as (_ & (w' & Hd & Hfs & _) & _).
    + reflexivity.
    + repeat split. by exists "5".
    + compute_eq.
    + discriminate.
    + exists w'. split; [exact Hd|exact Hfs].
Defined.

Lemma refusing_always_returns_false g :
  PyStr.contains "GEDI" (PyStr.last_segment (g_url g)) = true →
  always_returns_false Sample.env_refusing Sample.dl g.
Proof.
  intros Hc w. unfold download_granule. rewrite Hc. simpl.
  eexists. unfold bind, session_get. simpl. reflexivity.
Qed.

Lemma download_files_retry_budget_witness :
  (∃ w',
     download_one Sample.env_refusing Sample.dl Sample.g1 Sample.world0 = Val tt w'
     ∧ attempts w' = replicate 4 Sample.url1
     ∧ download_files Sample.env_refusing Sample.dl [Sample.g1; Sample.g2] Sample.world0
       = (download_files Sample.env_refusing Sample.dl [Sample.g2] ;;
          ret [Sample.g1; Sample.g2]) w')
  ∧ (∃ w3,
       download_one Sample.env_recovering Sample.dl Sample.g1 Sample.world0 = Val tt w3
       ∧ attempts w3 = replicate 3 Sample.url1)
  ∧ (∃ w1,
       download_files SampleMore.env_offline Sample.dl [Sample.g1; Sample.g2] Sample.world0
       = Exc RequestException w1
       ∧ attempts w1 = [Sample.url1])
  ∧ (∃ w3,
       download_files SampleMore.env_dropping Sample.dl [Sample.g1; Sample.g2] Sample.world0
       = Exc RequestException w3
       ∧ attempts w3 = replicate 2 Sample.url1)
  ∧ (∃ w',
       download_files Sample.env_refusing Sample.dl [Sample.g1; Sample.g2] Sample.world0
       = Val [Sample.g1; Sample.g2] w'
       ∧ attempts w' = replicate 4 Sample.url1 ++ replicate 4 Sample.url2).
Proof.
  split; [|split; [|split; [|split]]].
  - pose (w1 := world_of (download_granule Sample.env_refusing Sample.dl
                            Sample.url1 128 Sample.world0)).
    assert (H1 : download_granule Sample.env_refusing Sample.dl (g_url Sample.g1) 128
                   Sample.world0 = Val false w1) by compute_eq.
    eassert (Hk : retries_fail Sample.env_refusing Sample.dl Sample.g1 3 3
                    (add_stdout (MsgFailRetrying Sample.g1) w1) _).
    { repeat (eapply retries_fail_S; [compute_eq|]). apply retries_fail_O. }
    destruct (download_files_retry_budget Sample.env_refusing Sample.dl Sample.g1
                [Sample.g2] Sample.world0) as (_ & Hex & _).
    destruct (Hex _ _ H1 Hk) as (Hone & Hat & Hfiles).
    eexists. split; [exact Hone|]. split; [|exact Hfiles].
    rewrite Hone in Hat. exact Hat.
  - pose (w1 := world_of (download_granule Sample.env_recovering Sample.dl
                            Sample.url1 128 Sample.world0)).
    assert (H1 : download_granule Sample.env_recovering Sample.dl (g_url Sample.g1) 128
                   Sample.world0 = Val false w1) by compute_eq.
    pose (w2 := world_of (download_granule Sample.env_recovering Sample.dl Sample.url1 128
                            (add_stdout (MsgRetry 3)
                               (add_stdout (MsgFailRetrying Sample.g1) w1)))).
    assert (Hk : retries_fail Sample.env_recovering Sample.dl Sample.g1 1 3
                   (add_stdout (MsgFailRetrying Sample.g1) w1) w2).
    { eapply retries_fail_S; [|apply retries_fail_O]. compute_eq. }
    eassert (H3 : download_granule Sample.env_recovering Sample.dl (g_url Sample.g1) 128
                    (add_stdout (MsgRetry (3 - 1)) w2) = Val true _) by compute_eq.
    destruct (download_files_retry_budget Sample.env_recovering Sample.dl Sample.g1
                [Sample.g2] Sample.world0) as (_ & _ & Hok & _).
    destruct (Hok _ 1 _ _ H1 Hk ltac:(lia) H3) as (Hone & Hat & _).
    eexists. split; [exact Hone|]. rewrite Hone in Hat. exact Hat.
  - eassert (H1 : download_granule SampleMore.env_offline Sample.dl (g_url Sample.g1) 128
                    Sample.world0 = Exc RequestException _) by compute_eq.
    destruct (download_files_retry_budget SampleMore.env_offline Sample.dl Sample.g1
                [Sample.g2] Sample.world0) as (_ & _ & _ & Hraise & _).
    destruct (Hraise _ _ H1) as (Hfiles & Hat).
    eexists. split; [exact Hfiles|]. rewrite Hfiles in Hat. exact Hat.
  - pose (w1 := world_of (download_granule SampleMore.env_dropping Sample.dl
                            Sample.url1 128 Sample.world0)).
    assert (H1 : download_granule SampleMore.env_dropping Sample.dl (g_url Sample.g1) 128
                   Sample.world0 = Val false w1) by compute_eq.
    assert (Hk : retries_fail SampleMore.env_dropping Sample.dl Sample.g1 0 3
                   (add_stdout (MsgFailRetrying Sample.g1) w1)
                   (add_stdout (MsgFailRetrying Sample.g1) w1)) by apply retries_fail_O.
    eassert (H3 : download_granule SampleMore.env_dropping Sample.dl (g_url Sample.g1) 128
                    (add_stdout (MsgRetry (3 - 0)) (add_stdout (MsgFailRetrying Sample.g1) w1))
                  = Exc RequestException _) by compute_eq.
    destruct (download_files_retry_budget SampleMore.env_dropping Sample.dl Sample.g1
                [Sample.g2] Sample.world0) as (_ & _ & _ & _ & Hraise & _).
    destruct (Hraise _ 0 _ _ _ H1 Hk ltac:(lia) H3) as (Hfiles & Hat).
    eexists. split; [exact Hfiles|]. rewrite Hfiles in Hat. exact Hat.
  - destruct (download_files_retry_budget Sample.env_refusing Sample.dl Sample.g1
                [Sample.g2] Sample.world0) as (_ & _ & _ & _ & _ & Hall).
    destruct Hall as (w' & Hfiles & Hat).
    { intros g' Hin. apply refusing_always_returns_false.
      apply elem_of_cons in Hin as [->|Hin]; [reflexivity|].
      apply list_elem_of_singleton in Hin as ->. reflexivity. }
    exists w'. split; [exact Hfiles|]. exact Hat.
Defined.

Lemma run_pipeline_without_event_witness :
  ∃ w1,
    for_each (process_granule Sample.env_serving Sample.subset_writes
                (Sample.pipeline false None)) [Sample.g1] Sample.world0
    = Val tt w1
    ∧ for_granules Sample.env_serving Sample.subset_writes (Sample.pipeline false None)
        [Sample.g1; Sample.g2] Sample.world0
      = (process_granule Sample.env_serving Sample.subset_writes
           (Sample.pipeline false None) Sample.g2 ;;
         for_granules Sample.env_serving Sample.subset_writes
           (Sample.pipeline false None) []) w1
    ∧ ∃ w',
        run_pipeline Sample.env_serving Sample.find_two Sample.subset_writes
          (Sample.pipeline false None) Sample.world0
        = Val [Sample.g1; Sample.g2] w'.
Proof.
  eassert (H1 : for_each (process_granule Sample.env_serving Sample.subset_writes
                            (Sample.pipeline false None)) [Sample.g1] Sample.world0
                = Val tt _) by compute_eq.
  eassert (H2 : for_each (process_granule Sample.env_serving Sample.subset_writes
                            (Sample.pipeline false None)) [Sample.g1; Sample.g2]
                  Sample.world0
                = Val tt _) by compute_eq.
  destruct (run_pipeline_without_event Sample.env_serving Z unit
              Sample.find_two Sample.subset_writes (Sample.pipeline false None)
              [Sample.g1; Sample.g2] Sample.world0 eq_refl)
    as (_ & _ & Hreach & _ & _ & Hall).
  eexists. split; [exact H1|]. split.
  - exact (proj1 (Hreach [Sample.g1] Sample.g2 [] _ eq_refl H1)).
  - eexists. exact (Hall Sample.world0 _ eq_refl H2).
Defined.

Lemma raw_file_cleanup_witness :
  (∃ w',
     process_granule Sample.env_serving Sample.subset_writes (Sample.pipeline false None)
       Sample.g1 Sample.world0
     = Val tt w'
     ∧ fs w' !! "/out/GEDI02_A_001.h5" = None
     ∧ for_granules Sample.env_serving Sample.subset_writes (Sample.pipeline false None)
         [Sample.g1; Sample.g2] Sample.world0
       = for_granules Sample.env_serving Sample.subset_writes (Sample.pipeline false None)
           [Sample.g2] w')
  ∧ (∃ w',
       process_granule Sample.env_serving Sample.subset_writes (Sample.pipeline true None)
         Sample.g1 Sample.world0
       = Val tt w'
       ∧ fs w' !! "/out/GEDI02_A_001.h5" = Some (File (Sample.bytes 5))
       ∧ for_granules Sample.env_serving Sample.subset_writes (Sample.pipeline true None)
           [Sample.g1; Sample.g2] Sample.world0
         = for_granules Sample.env_serving Sample.subset_writes (Sample.pipeline true None)
             [Sample.g2] w').
Proof.
  split.
  - edestruct (raw_file_cleanup Sample.env_serving Z unit Sample.subset_writes
                 (Sample.pipeline false None) Sample.g1 Sample.world0)
      as (Hp & Hfs & _ & Hloop).
    + compute_eq.
    + compute_eq.
    + compute_eq.
    + compute_eq.
    + eexists. split; [exact Hp|]. split.
      * rewrite Hp in Hfs. exact Hfs.
      * exact (proj2 (Hloop Sample.world0 eq_refl) [Sample.g2]).
  - edestruct (raw_file_cleanup Sample.env_serving Z unit Sample.subset_writes
                 (Sample.pipeline true None) Sample.g1 Sample.world0)
      as (Hp & Hfs & _ & Hloop).
    + compute_eq.
    + compute_eq.
    + compute_eq.
    + compute_eq.
    + eexists. split; [exact Hp|]. split.
      * rewrite Hp in Hfs. exact Hfs.
      * exact (proj2 (Hloop Sample.world0 eq_refl) [Sample.g2]).
Defined.
Lemma init_polygon_unreadable_witness :
  GEDIPipeline_init Sample.env_serving (λ _ : string, @None Z) Sample.unreadable
    (λ _, true) ret ret Sample.bounds_of
    "/out" "GEDI02_A" "002" "2020.01.01" "2020.12.31"
    RoiOther None None false false false None (Some "roi.shp") Sample.world0
  = Exc AttributeError (add_stdout MsgRoiReadFailed Sample.world0)
  ∧ ∀ p w1,
      GEDIPipeline_init Sample.env_serving (λ _ : string, @None Z) Sample.unreadable
        (λ _, true) ret ret Sample.bounds_of
        "/out" "GEDI02_A" "002" "2020.01.01" "2020.12.31"
        (RoiList [Num 10; Num (-60); Num (-5); Num (-45)]%Z)
        None None false false false None (Some "roi.shp") Sample.world0
      = Val p w1 →
      Some [10; -60; -5; -45]%Z = Some (roi p) ∧ roi_gdf p = None.
Proof.
  split.
  - eapply (init_polygon_unreadable Sample.env_serving Z unit (λ _, None) Sample.unreadable
              (λ _, true) ret ret Sample.bounds_of
              "/out" "GEDI02_A" "002" "2020.01.01" "2020.12.31"
              RoiOther None None false false false None "roi.shp" None
              (OtherError "DriverError") Sample.world0 Sample.world0).
    + discriminate.
    + reflexivity.
    + reflexivity.
    + reflexivity.
  - eapply (init_polygon_unreadable Sample.env_serving Z unit (λ _, None) Sample.unreadable
              (λ _, true) ret ret Sample.bounds_of
              "/out" "GEDI02_A" "002" "2020.01.01" "2020.12.31"
              (RoiList [Num 10; Num (-60); Num (-5); Num (-45)]%Z)
              None None false false false None "roi.shp" (Some [10; -60; -5; -45]%Z)
              (OtherError "DriverError") Sample.world0 Sample.world0).
    + discriminate.
    + reflexivity.
    + reflexivity.
Defined.

Lemma rebuild_auth_strips_witness :
  let req := {| SessionNASA.headers := {[ "Authorization" := "Basic dXNlcjpzZWNyZXQ=" ]};
                SessionNASA.url := "https://urs.earthdata.nasa.gov/oauth/authorize" |} in
  SessionNASA.rebuild_auth Sample.hostname_of req "https://urs.earthdata.nasa.gov/login" = req.
Proof.
  intros req.
  apply (rebuild_auth_strips Sample.hostname_of req "https://urs.earthdata.nasa.gov/login").
  left. reflexivity.
Defined.

(** ** download_granule: what it leaves alone *)

Section Frames.

Context {X : Type} (f : World → X).

Lemma preserves_ret {A} (a : A) : preserves f (ret a).
Proof. by intros w. Qed.

Lemma preserves_raise {A} (e : Exn) : preserves f (@raise A e).
Proof. by intros w. Qed.

Lemma preserves_bind {A B} (c : M A) (k : A → M B) :
  preserves f c → (∀ a, preserves f (k a)) → preserves f (bind c k).
Proof.
  intros Hc Hk w. unfold bind. specialize (Hc w).
  destruct (c w) as [a w'|e w']; simpl in *; [|done].
  by rewrite Hk.
Qed.

Lemma preserves_if {A} (b : bool) (c1 c2 : M A) :
  preserves f c1 → preserves f c2 → preserves f (if b then c1 else c2).
Proof. by destruct b. Qed.

End Frames.

(** Splits a computation along its binds and tests, leaving the
    primitive steps. *)
Ltac frame :=
  repeat first
    [ apply preserves_ret | apply preserves_raise
    | apply preserves_bind; [|intros ?]
    | apply preserves_if
    | match goal with
      | |- preserves _ (match ?x with _ => _ end) => destruct x
      end ].

(** Settles a primitive step by running it. *)
Ltac prim :=
  let w := fresh "w" in
  intros w;
  unfold print, os_path_exists, os_path_getsize, os_remove, open_wb,
    file_write, int, session_get, ret, raise;
  simpl; repeat case_match; simpl;
  rewrite ?lookup_delete_ne, ?lookup_insert_ne by done; done.

Lemma write_chunks_requests p cs : preserves requests (write_chunks p cs).
Proof. induction cs as [|c cs IH]; simpl; frame; prim. Qed.

Lemma write_chunks_elsewhere p q cs :
  p ≠ q → preserves (λ w, fs w !! q) (write_chunks p cs).
Proof. intros Hne. induction cs as [|c cs IH]; simpl; frame; prim. Qed.

Section DownloadGranuleFrames.

Variable env : Env.
Variable self : GEDIDownloader.

Lemma after_response_requests r cs p l :
  preserves requests
    (size <- int env l ;;
     complete <- precheck_file p size ;;
     (if negb complete then download (resp_iter_content r cs) p else ret tt) ;;
     have <- os_path_getsize p ;;
     size' <- int env l ;;
     if negb (Z.of_nat have =? size')%Z then ret false else ret true).
Proof.
  unfold precheck_file, download. frame; try prim; apply write_chunks_requests.
Qed.


Lemma after_response_elsewhere r cs p q l :
  p ≠ q →
  preserves (λ w, fs w !! q)
    (size <- int env l ;;
     complete <- precheck_file p size ;;
     (if negb complete then download (resp_iter_content r cs) p else ret tt) ;;
     have <- os_path_getsize p ;;
     size' <- int env l ;;
     if negb (Z.of_nat have =? size')%Z then ret false else ret true).
Proof.
  intros Hne. unfold precheck_file, download.
  frame; try prim; by apply write_chunks_elsewhere.
Qed.

(** X1: A call of download_granule sends one GET when the last path segment
    of the URL carries the marker GEDI and none otherwise, however the
    call ends. *)
Theorem download_granule_requests u cs w :
  requests (world_of (download_granule env self u cs w))
  = requests w ++ (if PyStr.contains "GEDI" (PyStr.last_segment u) then [u] else []).
Proof.
  unfold download_granule. unfold bind at 1. simpl.
  destruct (PyStr.contains _ _); simpl; [|by rewrite app_nil_r].
  unfold bind at 1, session_get at 1. simpl.
  destruct (server env _ u) as [e|r]; [done|].
  destruct (resp_ok r); simpl; [|done].
  destruct (resp_headers r !! _) as [l|]; [|done].
  by rewrite after_response_requests.
Qed.

(** X2: download_granule reads and writes one path only, the target of the
    URL: whatever is stored at any other path is still there afterwards,
    however the call ends. *)
Theorem download_granule_elsewhere u cs w q :
  q ≠ target self u →
  fs (world_of (download_granule env self u cs w)) !! q = fs w !! q.
Proof.
  intros Hne. unfold download_granule. unfold bind at 1. simpl.
  destruct (PyStr.contains _ _); simpl; [|done].
  unfold bind at 1, session_get at 1. simpl.
  destruct (server env _ u) as [e|r]; [done|].
  destruct (resp_ok r); simpl; [|done].
  destruct (resp_headers r !! _) as [l|]; [|done].
  by rewrite (after_response_elsewhere r _ (target self u) q l).
Qed.

End DownloadGranuleFrames.

(** ** The pre-check, the writer and the first download *)

(** X3: When the pre-check returns True the file has the expected size and
    nothing but a line of output has changed; when it returns False
    nothing is stored at the path any more (a file of another size has
    been removed) and every other path is untouched. *)
Theorem precheck_file_post p n w b w' :
  precheck_file p n w = Val b w' →
  if b
  then w' = add_stdout (MsgExists p) w
       ∧ ∃ node, fs w !! p = Some node ∧ Z.of_nat (node_size node) = n
  else fs w' !! p = None ∧ ∀ q, q ≠ p → fs w' !! q = fs w !! q.
Proof.
  unfold precheck_file, os_path_exists, os_path_getsize, os_remove. run.
  destruct (fs w !! p) as [node|] eqn:Hf; simpl.
  - rewrite ?Hf. simpl.
    destruct (Z.eqb_spec (Z.of_nat (node_size node)) n) as [Hn|Hn]; simpl.
    + intros [= <- <-]. eauto.
    + rewrite Hf. destruct node as [c|sz]; [|done].
      intros [= <- <-]. simpl. split; [apply lookup_delete_eq|].
      intros q Hq. by rewrite lookup_delete_ne.
  - intros [= <- <-]. done.
Qed.


Section FirstDownload.

Variable env : Env.
Variable self : GEDIDownloader.

(** X5: With nothing stored at the target path, whose directory exists,
    download_granule writes the whole streamed body to it and returns
    True exactly when the number of bytes written is the announced one;
    a short or long body is left on disk with a result of False, and a
    broken stream raises with the bytes received so far on disk. *)
Theorem download_granule_fresh u cs w r n :
  PyStr.contains "GEDI" (PyStr.last_segment u) = true →
  announces env (length (requests w)) u r n →
  dir_exists w (PyStr.parent (target self u)) = true →
  fs w !! target self u = None →
  let s := resp_iter_content r (cs * 1024) in
  let body := concat (chunks s) in
  ∃ w', download_granule env self u cs w
        = (if fault s then Exc RequestException w'
           else Val (bool_decide (Z.of_nat (length body) = n)) w')
        ∧ fs w' = <[target self u := File body]> (fs w)
        ∧ received w' = received w + length body
        ∧ stdout w' = stdout w ++ [MsgDownloading (target self u)].
Proof.
  intros Hm (Hs & Hok & l & Hl & Hn) _ Hf s body.
  destruct (download_fresh s (target self u)
              (add_stdout (MsgDownloading (target self u)) (requested u w)))
    as (w' & Hd & Hfs & Hr & Ho & _); [done|].
  exists w'. split; [|done].
  unfold download_granule, session_get, int, precheck_file, os_path_exists.
  fold (target self u). run.
  rewrite Hm. simpl. rewrite Hs, Hok. simpl. rewrite Hl, Hn. simpl.
  rewrite Hf, bool_decide_false by (by intros [? ?]). simpl.
  fold s. unfold requested in Hd. simpl in Hd. rewrite Hd.
  destruct (fault s); [done|].
  unfold os_path_getsize. rewrite Hfs, lookup_insert_eq. simpl.
  fold body. by destruct (Z.eqb_spec (Z.of_nat (length body)) n);
    [rewrite bool_decide_true|rewrite bool_decide_false].
Qed.

(** X6: download_granule handles no exception: when the request itself
    raises, or the content-length of an ok response cannot be read as an
    integer, the exception leaves download_granule with nothing written
    and no byte of the body pulled. *)
Theorem download_granule_raises u cs w :
  PyStr.contains "GEDI" (PyStr.last_segment u) = true →
  (∀ e, server env (length (requests w)) u = GetRaises e →
        download_granule env self u cs w = Exc e (requested u w))
  ∧ (∀ r l, server env (length (requests w)) u = GetReturns r →
            resp_ok r = true →
            resp_headers r !! "content-length" = Some l →
            py_int env l = None →
            download_granule env self u cs w = Exc ValueError (requested u w)).
Proof.
  intros Hm. unfold download_granule, session_get, int. run. rewrite Hm. simpl.
  split.
  - intros e Hs. by rewrite Hs.
  - intros r l Hs Hok Hl Hn. rewrite Hs, Hok. simpl. by rewrite Hl, Hn.
Qed.

(** X7: download_files handles no exception either: an exception raised by
    the first attempt for a granule ends the whole batch there, with no
    retry for that granule and no attempt for the granules after it. *)
Theorem download_files_aborts g rest w e w' :
  download_granule env self (g_url g) 128 w = Exc e w' →
  download_files env self (g :: rest) w = Exc e w'
  ∧ attempts w' = attempts w ++ [g_url g].
Proof.
  intros H. split.
  - unfold download_files, download_one. simpl. unfold bind. by rewrite H.
  - by rewrite <- (download_granule_attempts env self (g_url g) 128 w), H.
Qed.

End FirstDownload.

(** ** download_files: the shape of a whole batch *)

Section Batch.

Variable env : Env.
Variable self : GEDIDownloader.

Lemma retry_loop_trace g r : ∀ w r' w',
  retry_loop env self g r w = Val r' w' →
  ∃ k, (k ≤ r)%nat ∧ attempts w' = attempts w ++ replicate k (g_url g).
Proof.
  induction r as [|r IH]; intros w r' w' H; simpl in H.
  - injection H as <- <-. exists 0. by rewrite app_nil_r.
  - unfold bind, print in H. simpl in H.
    destruct (download_granule _ _ _ _ _) as [[] w1|] eqn:Hd; [| |done];
      apply download_granule_attempts_val in Hd; simpl in Hd.
    + injection H as <- <-. exists 1. split; [lia|done].
    + destruct (IH _ _ _ H) as (k & Hk & Hat).
      exists (S k). split; [lia|]. rewrite Hat, Hd, <- app_assoc. done.
Qed.

Lemma download_one_trace g w w' :
  download_one env self g w = Val tt w' →
  ∃ k, (1 ≤ k ≤ 4)%nat ∧ attempts w' = attempts w ++ replicate k (g_url g).
Proof.
  intros H.
  destruct (download_granule env self (g_url g) 128 w) as [[] w1|e w1] eqn:Hd.
  - unfold download_one, bind in H. rewrite Hd in H. injection H as <-.
    apply download_granule_attempts_val in Hd. exists 1. split; [lia|done].
  - rewrite (download_one_failed env self g w w1 Hd) in H.
    apply download_granule_attempts_val in Hd.
    unfold bind at 1 in H.
    destruct (retry_loop _ _ _ _ _) as [r' w2|] eqn:Hr; [|done].
    apply retry_loop_trace in Hr as (k & Hk & Hat). simpl in Hat.
    exists (S k). split; [lia|].
    assert (attempts w' = attempts w2) as ->.
    { destruct (r' =? 0)%nat; by injection H as <-. }
    rewrite Hat, Hd, <- app_assoc. done.
  - unfold download_one, bind in H. by rewrite Hd in H.
Qed.

(** X8: Whenever download_files returns, it returns the list it was given,
    and the calls of download_granule it made are, granule by granule
    in the order of the list, between one and four consecutive calls
    for that granule's URL. *)
Theorem download_files_trace gs : ∀ w r w',
  download_files env self gs w = Val r w' →
  r = gs
  ∧ ∃ ks : list nat,
      length ks = length gs
      ∧ Forall (λ k, 1 ≤ k ≤ 4)%nat ks
      ∧ attempts w' = attempts w ++ concat (zip_with replicate ks (g_url <$> gs)).
Proof.
  assert (Hloop : ∀ gs w w', for_each (download_one env self) gs w = Val tt w' →
    ∃ ks : list nat,
      length ks = length gs
      ∧ Forall (λ k, 1 ≤ k ≤ 4)%nat ks
      ∧ attempts w' = attempts w ++ concat (zip_with replicate ks (g_url <$> gs))).
  { clear gs. induction gs as [|g gs IH]; intros w w' H; simpl in H.
    - injection H as <-. exists []. by rewrite app_nil_r.
    - unfold bind in H.
      destruct (download_one env self g w) as [[] w1|] eqn:H1; [|done].
      apply download_one_trace in H1 as (k & Hk & Hat1).
      destruct (IH _ _ H) as (ks & Hlen & Hall & Hat).
      exists (k :: ks). split; [simpl; lia|]. split; [by constructor|].
      simpl. rewrite Hat, Hat1, <- app_assoc. done. }
  intros w r w' H. unfold download_files, bind in H.
  destruct (for_each _ gs w) as [[] w1|] eqn:Hf; [|done].
  injection H as <- <-. split; [done|]. by apply Hloop.
Qed.

End Batch.

(** ** rebuild_auth applied again *)

(** X9: Handling the same redirect a second time changes nothing more. *)
Theorem rebuild_auth_idempotent hostname req original_url :
  SessionNASA.rebuild_auth hostname
    (SessionNASA.rebuild_auth hostname req original_url) original_url
  = SessionNASA.rebuild_auth hostname req original_url.
Proof.
  unfold SessionNASA.rebuild_auth.
  destruct (bool_decide (is_Some (SessionNASA.headers req !! "Authorization"))) eqn:Hp;
    simpl; [|by rewrite Hp].
  destruct (_ && _) eqn:Hc; simpl.
  - rewrite lookup_delete_eq. rewrite bool_decide_false; [done|]. by intros [? ?].
  - by rewrite Hp, Hc.
Qed.

(** ** run_pipeline: reruns, the returned list, a raising subsetter *)

Section RunPipelineMore.

Variable env : Env.
Variables Coord Gdf : Type.
Variable find :
  string → string → string → string → bool → list Coord → string → M (list Granule).
Variable subset :
  list Coord → string → string → option (list string) → option (list string) →
  option Gdf → string → M unit.
Variable self : GEDIPipeline Coord Gdf.

Lemma process_granule_subsetted g w :
  is_Some (fs w !! artifact_path self g) →
  process_granule env subset self g w = Val tt (add_stdout (MsgAlreadySubsetted g) w).
Proof.
  intros Ha. unfold process_granule, os_path_exists. fold (artifact_path self g).
  unfold bind at 1. by rewrite bool_decide_true.
Qed.


(** X11: What run_pipeline returns is always the list the finder returned,
    whatever was processed, skipped or cancelled; and when the finder
    raises, run_pipeline raises the same exception from the same world,
    with nothing else done. *)
Theorem run_pipeline_returns_discovered w :
  match finder_find find self (out_directory self) w with
  | Val gs w0 =>
      ∀ r w', run_pipeline env find subset self w = Val r w' → r = gs
  | Exc e w0 => run_pipeline env find subset self w = Exc e w0
  end.
Proof.
  unfold run_pipeline, bind.
  destruct (finder_find find self _ w) as [gs w0|e w0]; [|done].
  intros r w' H. destruct (for_granules _ _ _ _ _); [|done]. by injection H as <-.
Qed.

(** X12: run_pipeline handles no exception of the subsetter: when subset
    raises on a downloaded granule, the loop ends with that exception in
    the world the subsetter left, so the raw file is not removed by the
    pipeline and the granules after it are not started. *)
Theorem for_granules_subsetter_raises g rest w wc w1 e w2 :
  cancel_requested self w = Val false wc →
  fs wc !! artifact_path self g = None →
  download_granule env (downloader self) (g_url g) 128 wc = Val true w1 →
  subsetter_subset subset self (raw_path self g) w1 = Exc e w2 →
  for_granules env subset self (g :: rest) w = Exc e w2.
Proof.
  intros Hc Ha Hd Hs.
  rewrite (for_granules_cons env Coord Gdf subset self g rest w wc Hc).
  unfold bind at 1, process_granule, os_path_exists.
  fold (artifact_path self g) (raw_path self g).
  unfold bind at 1. rewrite Ha, bool_decide_false by (by intros [? ?]).
  unfold bind at 1. rewrite Hd. simpl. unfold bind at 1. by rewrite Hs.
Qed.

(** X13: With keep_original_file unset, a subsetter that has itself removed
    the raw file makes the clean-up raise FileNotFoundError. *)
Theorem for_granules_raw_file_gone g rest w wc w1 w2 :
  keep_original_file self = false →
  cancel_requested self w = Val false wc →
  fs wc !! artifact_path self g = None →
  download_granule env (downloader self) (g_url g) 128 wc = Val true w1 →
  subsetter_subset subset self (raw_path self g) w1 = Val tt w2 →
  fs w2 !! raw_path self g = None →
  for_granules env subset self (g :: rest) w = Exc FileNotFoundError w2.
Proof.
  intros Hk Hc Ha Hd Hs Hf.
  rewrite (for_granules_cons env Coord Gdf subset self g rest w wc Hc).
  unfold bind at 1, process_granule, os_path_exists.
  fold (artifact_path self g) (raw_path self g).
  unfold bind at 1. rewrite Ha, bool_decide_false by (by intros [? ?]).
  unfold bind at 1. rewrite Hd. simpl. unfold bind at 1. rewrite Hs, Hk. simpl.
  unfold os_remove. by rewrite Hf.
Qed.

End RunPipelineMore.

(** ** GEDIPipeline.__init__: the ROI and the wiring *)

Section InitMore.

Variable env : Env.
Variables Coord Gdf : Type.
Variable py_float : string → option Coord.
Variable gp_read_file : string → M Gdf.
Variable crs_is_none : Gdf → bool.
Variable set_crs : Gdf → M Gdf.
Variable to_crs : Gdf → M Gdf.
Variable total_bounds : Gdf → M (Coord * Coord * Coord * Coord).

Local Abbreviation init :=
  (GEDIPipeline_init env py_float gp_read_file crs_is_none set_crs to_crs
     total_bounds).

(** X16: A polygon file that is read, reprojected and bounded takes over the
    ROI: every pipeline __init__ returns carries the frame and the box
    [maxy, minx, miny, maxx] of its bounds, whatever the roi argument
    was, including one that assigns nothing. *)
Theorem init_polygon_takes_over
  out prod ver ds de roi_arg sds beams rm pl keep ce path parsed
  gdf minx miny maxx maxy w w1 w2 :
  path ≠ EmptyString →
  roi_of_arg py_float roi_arg w = Val parsed w →
  read_polygon gp_read_file crs_is_none set_crs to_crs path w = Val gdf w1 →
  total_bounds gdf w1 = Val (minx, miny, maxx, maxy) w2 →
  init out prod ver ds de roi_arg sds beams rm pl keep ce (Some path) w
  = init_collaborators env out prod ver ds de sds beams rm pl keep ce (Some path)
      (Some gdf) (Some [maxy; minx; miny; maxx]) (add_stdout MsgRoiBounds w2)
  ∧ ∀ (p : GEDIPipeline Coord Gdf) w',
      init out prod ver ds de roi_arg sds beams rm pl keep ce (Some path) w = Val p w' →
      roi p = [maxy; minx; miny; maxx] ∧ roi_gdf p = Some gdf.
Proof.
  intros Hpath Hroi Hread Hb.
  assert (E : init out prod ver ds de roi_arg sds beams rm pl keep ce (Some path) w
    = init_collaborators env out prod ver ds de sds beams rm pl keep ce (Some path)
        (Some gdf) (Some [maxy; minx; miny; maxx]) (add_stdout MsgRoiBounds w2)).
  { unfold init, GEDIPipeline_init. unfold bind at 1. rewrite Hroi.
    destruct path as [|a path]; [done|]. simpl.
    unfold bind at 1, load_roi_polygon, try_except, bind at 1. rewrite Hread.
    unfold bind at 1. by rewrite Hb. }
  split; [done|]. intros p w' Hp. rewrite E in Hp.
  apply init_collaborators_fields in Hp as [Hr Hg]. split; [congruence|done].
Qed.

(** X17: When the file is read and reprojected but its bounds cannot be
    taken, the frame is kept while the ROI stays what the roi argument
    gave: the pipeline then carries a polygon together with a box that
    was not derived from it. *)
Theorem init_bounds_failure_keeps_frame
  out prod ver ds de roi_arg sds beams rm pl keep ce path parsed gdf e w w1 w2 :
  path ≠ EmptyString →
  roi_of_arg py_float roi_arg w = Val parsed w →
  read_polygon gp_read_file crs_is_none set_crs to_crs path w = Val gdf w1 →
  total_bounds gdf w1 = Exc e w2 →
  ∀ (p : GEDIPipeline Coord Gdf) w',
    init out prod ver ds de roi_arg sds beams rm pl keep ce (Some path) w = Val p w' →
    parsed = Some (roi p) ∧ roi_gdf p = Some gdf.
Proof.
  intros Hpath Hroi Hread Hb p w'.
  unfold init, GEDIPipeline_init. unfold bind at 1. rewrite Hroi.
  destruct path as [|a path]; [done|]. simpl.
  unfold bind at 1, load_roi_polygon, try_except, bind at 1. rewrite Hread.
  unfold bind at 1. rewrite Hb. simpl.
  apply init_collaborators_fields.
Qed.




End InitMore.

(** ** File names and paths *)

Lemma contains_char c a s :
  PyStr.contains (String c EmptyString) (String a s)
  = Ascii.eqb a c || PyStr.contains (String c EmptyString) s.
Proof.
  simpl. destruct (Ascii.ascii_dec c a) as [->|Hne].
  - rewrite Ascii.eqb_refl. by destruct s.
  - destruct (Ascii.eqb_spec a c); [congruence|done].
Qed.

Lemma split_segments c s :
  Forall (λ seg, PyStr.contains (String c EmptyString) seg = false) (PyStr.split c s).
Proof.
  induction s as [|a s IH]; simpl.
  - by repeat constructor.
  - destruct (Ascii.eqb_spec a c) as [->|Hne].
    + constructor; [done|exact IH].
    + assert (Ha : Ascii.eqb a c = false) by (by destruct (Ascii.eqb_spec a c)).
      destruct (PyStr.split c s) as [|h t].
      * constructor; [|done]. by rewrite contains_char, Ha.
      * inversion IH as [|? ? Hh Ht]; subst. constructor; [|done].
        by rewrite contains_char, Hh, Ha.
Qed.

Lemma split_nonempty c s : PyStr.split c s ≠ [].
Proof.
  destruct s as [|a s]; simpl; [done|].
  destruct (Ascii.eqb a c); [done|]. by destruct (PyStr.split c s).
Qed.

Lemma last_segment_has_no_slash u : PyStr.contains "/" (PyStr.last_segment u) = false.
Proof.
  unfold PyStr.last_segment.
  pose proof (split_segments "/"%char u) as H.
  pose proof (split_nonempty "/"%char u) as Hne.
  induction H as [|seg l Hseg Hl IH]; [done|].
  destruct l as [|seg' l]; [done|]. apply IH. done.
Qed.

Lemma no_slash_not_sep s : PyStr.contains "/" s = false → PyStr.starts_with_sep s = false.
Proof.
  destruct s as [|a s]; [done|]. rewrite contains_char. simpl.
  by destruct (Ascii.eqb a "/").
Qed.

Lemma string_app_assoc (a b c : string) : ((a ++ b) ++ c = a ++ (b ++ c))%string.
Proof. induction a as [|x a IH]; [done|]. change (String x ((a ++ b) ++ c) = String x (a ++ b ++ c))%string. by rewrite IH. Qed.

Lemma path_join_relative a b :
  PyStr.starts_with_sep b = false → PyStr.path_join a b = (joined_dir a ++ b)%string.
Proof.
  intros Hb. unfold PyStr.path_join, joined_dir. rewrite Hb.
  destruct (_ || _); [done|]. by rewrite string_app_assoc.
Qed.

(** X20: The file download_granule writes is always directly inside the
    save directory: its name is the last segment of the URL, which holds
    no slash, appended to the directory. *)
Theorem target_inside_save_path self u :
  PyStr.contains "/" (PyStr.last_segment u) = false
  ∧ target self u = (joined_dir (save_path self) ++ PyStr.last_segment u)%string.
Proof.
  split; [apply last_segment_has_no_slash|].
  apply path_join_relative, no_slash_not_sep, last_segment_has_no_slash.
Qed.

Lemma string_length_app (a b : string) :
  String.length (a ++ b)%string = (String.length a + String.length b)%nat.
Proof.
  induction a as [|x a IH]; [done|].
  change (S (String.length (a ++ b)%string) = S (String.length a + String.length b)%nat).
  by rewrite IH.
Qed.

Lemma prefix_length a : ∀ b, String.prefix a b = true → (String.length a ≤ String.length b)%nat.
Proof.
  induction a as [|x a IH]; intros b H; simpl; [lia|].
  destruct b as [|y b]; simpl in H; [done|].
  destruct (Ascii.ascii_dec x y); [|done]. apply IH in H. simpl. lia.
Qed.

Lemma replace_from_step old new a s :
  PyStr.replace_from old new 0 (String a s)
  = if String.prefix old (String a s)
    then (new ++ PyStr.replace_from old new (String.length old - 1) s)%string
    else String a (PyStr.replace_from old new 0 s).
Proof. done. Qed.

(** Nothing to replace: the string comes back as it is. *)
Lemma replace_absent old new s :
  PyStr.contains old s = false → PyStr.replace old new s = s.
Proof.
  unfold PyStr.replace. induction s as [|a s IH]; [done|].
  intros H. change (String.prefix old (String a s) || PyStr.contains old s = false) in H.
  apply orb_false_iff in H as [Hp Hc].
  rewrite replace_from_step, Hp. by rewrite IH.
Qed.

Lemma replace_from_length old new :
  (0 < String.length old ≤ String.length new)%nat →
  ∀ s k, (String.length s - k ≤ String.length (PyStr.replace_from old new k s))%nat.
Proof.
  intros Hlen. induction s as [|a s IH]; intros k; [simpl; lia|].
  destruct k as [|k].
  - rewrite replace_from_step. destruct (String.prefix old (String a s)) eqn:Hp.
    + rewrite string_length_app. apply prefix_length in Hp. simpl in Hp.
      specialize (IH (String.length old - 1)). simpl. lia.
    + specialize (IH 0). simpl in *. lia.
  - specialize (IH k). simpl. lia.
Qed.

(** Something to replace by something longer: the string grows. *)
Lemma replace_grows old new s :
  (0 < String.length old < String.length new)%nat →
  PyStr.contains old s = true →
  (String.length s < String.length (PyStr.replace old new s))%nat.
Proof.
  intros Hlen. unfold PyStr.replace. induction s as [|a s IH]; intros H.
  - change (String.prefix old EmptyString || false = true) in H.
    rewrite orb_false_r in H. apply prefix_length in H. simpl in H. lia.
  - change (String.prefix old (String a s) || PyStr.contains old s = true) in H.
    rewrite replace_from_step. destruct (String.prefix old (String a s)) eqn:Hp.
    + rewrite string_length_app. apply prefix_length in Hp. simpl in Hp.
      pose proof (replace_from_length old new ltac:(lia) s (String.length old - 1)).
      simpl. lia.
    + simpl in H. apply IH in H. simpl. lia.
Qed.

Lemma replace_ext_not_sep s :
  PyStr.starts_with_sep s = false →
  PyStr.starts_with_sep (PyStr.replace ".h5" ".gpkg" s) = false.
Proof.
  unfold PyStr.replace. destruct s as [|a s]; [done|]. intros H.
  rewrite replace_from_step. by destruct (String.prefix ".h5" (String a s)).
Qed.

Section ArtifactNames.

Context {Coord Gdf : Type}.
Variable self : GEDIPipeline Coord Gdf.

(** X21: The path the skip check looks at is the path of the raw file
    exactly when the file name of the URL holds no ".h5". *)
Theorem artifact_path_is_raw_path g :
  artifact_path self g = raw_path self g
  ↔ PyStr.contains ".h5" (PyStr.last_segment (g_url g)) = false.
Proof.
  unfold artifact_path, raw_path.
  set (name := PyStr.last_segment (g_url g)).
  assert (Hn : PyStr.starts_with_sep name = false)
    by apply no_slash_not_sep, last_segment_has_no_slash.
  rewrite !path_join_relative by (done || by apply replace_ext_not_sep).
  split.
  - intros H%(inj _). destruct (PyStr.contains ".h5" name) eqn:Hc; [|done].
    apply (replace_grows ".h5" ".gpkg") in Hc; [|simpl; lia].
    rewrite H in Hc. lia.
  - intros Hc. by rewrite replace_absent.
Qed.

End ArtifactNames.

Section SkipOnRawFile.

Variable env : Env.
Variables Coord Gdf : Type.
Variable subset :
  list Coord → string → string → option (list string) → option (list string) →
  option Gdf → string → M unit.
Variable self : GEDIPipeline Coord Gdf.

(** X22: For a URL whose file name holds no ".h5", a raw file already on
    disk is taken for the artifact: the granule is reported as already
    subsetted and neither downloaded nor subsetted. *)
Theorem process_granule_raw_taken_for_artifact g w :
  PyStr.contains ".h5" (PyStr.last_segment (g_url g)) = false →
  is_Some (fs w !! raw_path self g) →
  process_granule env subset self g w = Val tt (add_stdout (MsgAlreadySubsetted g) w).
Proof.
  intros Hc Hf. apply process_granule_subsetted.
  by rewrite (proj2 (artifact_path_is_raw_path self g) Hc).
Qed.

End SkipOnRawFile.

(** ** The credential lookup *)

Section CredentialLookup.

Variable expanduser : string → string.
Variable netrc_authenticators :
  string → Node → string → option (option (string * string * string)).
Variable prompt : M (string * string).

Lemma netrc_lookup_first paths w :
  netrc_lookup netrc_authenticators paths w
  = Val (head (omap (netrc_entry netrc_authenticators w) paths)) w.
Proof.
  induction paths as [|path rest IH]; [done|].
  change (omap (netrc_entry netrc_authenticators w) (path :: rest))
    with (match netrc_entry netrc_authenticators w path with
          | Some y => y :: omap (netrc_entry netrc_authenticators w) rest
          | None => omap (netrc_entry netrc_authenticators w) rest
          end).
  cbn [netrc_lookup]. unfold bind at 1, os_path_exists, netrc_entry at 1 2.
  destruct (fs w !! path) as [node|] eqn:Hf.
  - rewrite bool_decide_true by eauto.
    unfold bind at 1, try_except, bind at 1, netrc_read. rewrite Hf.
    destruct (netrc_authenticators path node SessionNASA.AUTH_HOST)
      as [[[[login account] password]|]|]; simpl; try done.
  - rewrite bool_decide_false by (by intros [? ?]). exact IH.
Qed.

(** X23: The lookup in the two netrc files never raises and never changes
    the world.  It returns the entry of the first of ~/.netrc and
    ~/_netrc that is there, can be read and has an entry for the trusted
    host; the prompt runs only when neither has one. *)
Theorem lookup_or_prompt_order w :
  lookup_or_prompt expanduser netrc_authenticators prompt w
  = match netrc_entry netrc_authenticators w (expanduser "~/.netrc") with
    | Some creds => Val creds w
    | None =>
        match netrc_entry netrc_authenticators w (expanduser "~/_netrc") with
        | Some creds => Val creds w
        | None => prompt w
        end
    end.
Proof.
  unfold lookup_or_prompt, bind. rewrite netrc_lookup_first. simpl.
  destruct (netrc_entry _ w (expanduser "~/.netrc")); simpl; [done|].
  by destruct (netrc_entry _ w (expanduser "~/_netrc")).
Qed.

(** X24: Explicit credentials count only as a pair: a username without a
    password, or a password without a username, is dropped and the
    entry of the netrc file is used in its place. *)
Theorem load_credentials_partial_pair_dropped env username password w creds :
  netrc_or_prompt env = lookup_or_prompt expanduser netrc_authenticators prompt →
  SessionNASA.truthy username && SessionNASA.truthy password = false →
  netrc_entry netrc_authenticators w (expanduser "~/.netrc") = Some creds →
  SessionNASA._load_credentials env username password w = Val creds w.
Proof.
  intros Henv Hpair Hentry. unfold SessionNASA._load_credentials.
  by rewrite Hpair, Henv, lookup_or_prompt_order, Hentry.
Qed.

End CredentialLookup.

(** ** StreamToSignal.write *)

Section WriteToSignal.

Variable isspace : Ascii.ascii → bool.

Lemma string_app_cons a (s t : string) :
  (String a s ++ t)%string = String a (s ++ t)%string.
Proof. done. Qed.

Lemma string_app_nil_r (s : string) : (s ++ EmptyString)%string = s.
Proof. induction s as [|a s IH]; [done|]. by rewrite string_app_cons, IH. Qed.

Lemma lstrip_split s :
  ∃ pre, all_space isspace pre = true ∧ s = (pre ++ lstrip isspace s)%string.
Proof.
  induction s as [|a s (pre & Hpre & IH)]; [by exists EmptyString|].
  simpl. destruct (isspace a) eqn:Ha.
  - exists (String a pre). simpl. rewrite Ha, Hpre. split; [done|].
    by rewrite string_app_cons, <- IH.
  - by exists EmptyString.
Qed.

Lemma rstrip_split s :
  ∃ post, all_space isspace post = true ∧ s = (rstrip isspace s ++ post)%string.
Proof.
  induction s as [|a s (post & Hpost & IH)]; [by exists EmptyString|].
  cbn [rstrip]. destruct (rstrip isspace s) as [|b r] eqn:Hr.
  - change (s = post) in IH. subst post. destruct (isspace a) eqn:Ha.
    + exists (String a s). split; [|done]. simpl. by rewrite Ha, Hpost.
    + exists s. split; [done|]. done.
  - exists post. split; [done|]. rewrite string_app_cons. by rewrite <- IH.
Qed.

(** A string that [rstrip] leaves alone keeps that property when
    leading characters are dropped. *)
Lemma rstrip_fixed_tail a s :
  rstrip isspace (String a s) = String a s → rstrip isspace s = s.
Proof.
  simpl. destruct (rstrip isspace s) as [|b r] eqn:Hr.
  - destruct (isspace a); [done|]. by intros [= <-].
  - by intros [= <-].
Qed.

Lemma rstrip_lstrip_fixed s :
  rstrip isspace s = s → rstrip isspace (lstrip isspace s) = lstrip isspace s.
Proof.
  induction s as [|a s IH]; [done|]. intros H.
  cbn [lstrip]. destruct (isspace a); [|done].
  apply IH. by apply rstrip_fixed_tail in H.
Qed.

Lemma rstrip_step a s :
  rstrip isspace (String a s)
  = match rstrip isspace s with
    | EmptyString => if isspace a then EmptyString else String a EmptyString
    | r => String a r
    end.
Proof. done. Qed.

Lemma rstrip_idempotent s : rstrip isspace (rstrip isspace s) = rstrip isspace s.
Proof.
  induction s as [|a s IH]; [done|].
  rewrite rstrip_step. destruct (rstrip isspace s) as [|b r] eqn:Hr.
  - destruct (isspace a) eqn:Ha; [done|]. rewrite rstrip_step. simpl. by rewrite Ha.
  - by rewrite rstrip_step, IH.
Qed.

Lemma lstrip_idempotent s : lstrip isspace (lstrip isspace s) = lstrip isspace s.
Proof.
  induction s as [|a s IH]; [done|].
  simpl. destruct (isspace a) eqn:Ha; [done|]. simpl. by rewrite Ha.
Qed.

Lemma all_space_app s t :
  all_space isspace (s ++ t)%string = all_space isspace s && all_space isspace t.
Proof.
  induction s as [|a s IH]; [done|].
  rewrite string_app_cons. simpl. by rewrite IH, andb_assoc.
Qed.

Lemma lstrip_empty s : lstrip isspace s = EmptyString → all_space isspace s = true.
Proof.
  induction s as [|a s IH]; [done|]. simpl.
  destruct (isspace a); [exact IH|done].
Qed.

(** X25: What reaches the log.  Text made of white space only, such as the
    newline print writes after each line, is dropped; any other text is
    emitted once, without the white space around it: the emitted text
    is between white space in the original, neither starts nor ends
    with white space, and writing it again emits it unchanged. *)
Theorem write_emits_stripped_text text :
  match StreamToSignal_write isspace text with
  | None => all_space isspace text = true
  | Some t =>
      t ≠ EmptyString
      ∧ (∃ pre post, all_space isspace pre = true ∧ all_space isspace post = true
                     ∧ text = (pre ++ t ++ post)%string)
      ∧ lstrip isspace t = t ∧ rstrip isspace t = t
      ∧ StreamToSignal_write isspace t = Some t
  end.
Proof.
  unfold StreamToSignal_write.
  destruct (rstrip_split text) as (post & Hpost & Ht).
  destruct (lstrip_split (rstrip isspace text)) as (pre & Hpre & Hr).
  assert (Hl : lstrip isspace (strip isspace text) = strip isspace text)
    by apply lstrip_idempotent.
  assert (Hrr : rstrip isspace (strip isspace text) = strip isspace text)
    by (apply rstrip_lstrip_fixed, rstrip_idempotent).
  fold (strip isspace text) in Hr.
  destruct (strip isspace text) as [|a t] eqn:Hs.
  - rewrite Ht, Hr, !all_space_app, Hpre, Hpost. done.
  - split; [done|]. split.
    { exists pre, post. split; [done|]. split; [done|].
      rewrite Ht at 1. rewrite Hr at 1. by rewrite string_app_assoc. }
    split; [done|]. split; [done|].
    unfold strip. by rewrite Hrr, Hl.
Qed.

End WriteToSignal.
(** ** The credential file written by the dialog *)

Section NetrcFileProperties.

Variable path_home : option string.
Variable joinpath : string → string → string.
Variable is_nt : bool.
Variable encode_text : string → option (list Byte.byte).
Variable permits : string → bool.

Lemma write_netrc_effect content d name w :
  write_netrc joinpath encode_text permits content d name w
  = Val (netrc_log encode_text permits w d content (joinpath d name))
        (if can_open permits w d (joinpath d name)
         then set_fs <[joinpath d name := File (default [] (encode_text content))]> w
         else w).
Proof.
  unfold write_netrc, try_except, write_text, netrc_log, can_open, bind.
  destruct (fs w !! joinpath d name) as [[c|sz]|] eqn:Hf; simpl; try done;
    destruct (dir_exists w d); simpl; try done;
    destruct (permits (joinpath d name)); simpl; try done;
    destruct (encode_text content) as [bytes|]; simpl; try done.
Qed.

(** Writing one of the files changes nothing about which files can be
    opened. *)
Lemma can_open_after_write d p bytes w q :
  can_open permits w d p = true →
  can_open permits (set_fs <[p := File bytes]> w) d q = can_open permits w d q.
Proof.
  unfold can_open, dir_exists. intros Hp. simpl.
  apply andb_prop in Hp as [Hp _]. apply andb_prop in Hp as [Hp _].
  assert (Hdir : ∀ x, is_dir (<[p := File bytes]> (fs w) !! x) = is_dir (fs w !! x)).
  { intros x. destruct (decide (p = x)) as [->|Hne].
    - rewrite lookup_insert_eq. simpl. by destruct (is_dir (fs w !! x)).
    - by rewrite lookup_insert_ne. }
  rewrite (Hdir q). do 2 f_equal.
  pose proof (Hdir d) as Hd. unfold is_dir in Hd. by rewrite Hd.
Qed.

Lemma write_all_effect content d names : ∀ w,
  ∃ w', map_m (λ f, write_netrc joinpath encode_text permits content f.1 f.2)
          ((λ name, (d, name)) <$> names) w
        = Val (netrc_log encode_text permits w d content <$> (joinpath d <$> names)) w'
        ∧ ∀ q, fs w' !! q
               = if bool_decide (q ∈ joinpath d <$> names) && can_open permits w d q
                 then Some (File (default [] (encode_text content)))
                 else fs w !! q.
Proof.
  induction names as [|name names IH]; intros w.
  - exists w. split; [done|]. intros q.
    by rewrite bool_decide_false by apply not_elem_of_nil.
  - rewrite !fmap_cons. cbn [map_m]. unfold bind at 1. cbn [fst snd].
    rewrite write_netrc_effect.
    set (p := joinpath d name).
    set (w1 := if can_open permits w d p
               then set_fs <[p := File (default [] (encode_text content))]> w
               else w).
    assert (Hopen : ∀ q, can_open permits w1 d q = can_open permits w d q).
    { intros q. subst w1. destruct (can_open permits w d p) eqn:Hp; [|done].
      by apply can_open_after_write. }
    assert (Hw1 : ∀ q, fs w1 !! q
              = if bool_decide (q = p) && can_open permits w d q
                then Some (File (default [] (encode_text content)))
                else fs w !! q).
    { intros q. subst w1. destruct (decide (q = p)) as [->|Hne].
      - rewrite bool_decide_true by done.
        destruct (can_open permits w d p); simpl; [|done]. by rewrite lookup_insert_eq.
      - rewrite bool_decide_false by done.
        destruct (can_open permits w d p); simpl; [|done]. by rewrite lookup_insert_ne. }
    destruct (IH w1) as (w' & Hm & Hfs).
    exists w'. split.
    + unfold bind at 1. rewrite Hm. unfold ret. do 2 f_equal.
      apply list_fmap_ext. intros ? q _. unfold netrc_log. by rewrite Hopen.
    + intros q. rewrite Hfs, Hopen, Hw1.
      destruct (decide (q ∈ joinpath d <$> names)) as [Hin|Hin];
        destruct (decide (q = p)) as [->|Hne];
        rewrite ?(bool_decide_true (_ ∈ joinpath d <$> names)),
          ?(bool_decide_false (_ ∈ joinpath d <$> names)) by done;
        rewrite ?(bool_decide_true (_ = _)), ?(bool_decide_false (_ = _)) by done.
      * rewrite bool_decide_true by by left. by destruct (can_open permits w d p).
      * rewrite bool_decide_true by by right. by destruct (can_open permits w d q).
      * rewrite bool_decide_true by by left. by destruct (can_open permits w d p).
      * rewrite bool_decide_false by (by intros [?|?]%elem_of_cons). done.
Qed.

Local Abbreviation prepare :=
  (_prepare_netrc path_home joinpath is_nt encode_text permits).

Lemma prepare_netrc_given params user pwd w :
  params !! "earthdata_user" = Some user →
  params !! "earthdata_pass" = Some pwd →
  prepare params w
  = (if negb (nonempty user) || negb (nonempty pwd) then ret []
     else
       files <- netrc_files path_home is_nt ;;
       map_m (λ f, write_netrc joinpath encode_text permits (netrc_line user pwd) f.1 f.2)
         files) w.
Proof.
  intros Hu Hp. unfold _prepare_netrc, params_get. rewrite Hu, Hp.
  unfold bind at 1, ret at 1. unfold bind at 1, ret at 1. done.
Qed.

(** X26: What _prepare_netrc does.  A missing entry of params raises
    KeyError, and with an empty user name or password nothing is
    written; otherwise it raises if no home directory can be determined.
    Else it never raises: each of its files that can be opened for
    writing ends up holding the encoded line for the user and the
    password, or nothing if the line cannot be encoded, a file that
    cannot be opened is left as it is, every file that was not written
    in full is logged as failed, and no other path is touched. *)
Theorem prepare_netrc_effect params w :
  match params !! "earthdata_user", params !! "earthdata_pass" with
  | Some user, Some pwd =>
      if negb (nonempty user) || negb (nonempty pwd)
      then prepare params w = Val [] w
      else
        match path_home with
        | None => prepare params w = Exc (OtherError "RuntimeError") w
        | Some d =>
            let content := netrc_line user pwd in
            let paths := joinpath d <$> [".netrc"] ++ (if is_nt then ["_netrc"] else []) in
            ∃ w', prepare params w
                  = Val (netrc_log encode_text permits w d content <$> paths) w'
                  ∧ ∀ q, fs w' !! q
                         = if bool_decide (q ∈ paths) && can_open permits w d q
                           then Some (File (default [] (encode_text content)))
                           else fs w !! q
        end
  | _, _ => prepare params w = Exc (OtherError "KeyError") w
  end.
Proof.
  destruct (params !! "earthdata_user") as [user|] eqn:Hu;
    [|by unfold _prepare_netrc, params_get, bind; rewrite Hu].
  destruct (params !! "earthdata_pass") as [pwd|] eqn:Hp;
    [|by unfold _prepare_netrc, params_get, bind; rewrite Hu, Hp].
  rewrite (prepare_netrc_given params user pwd w Hu Hp).
  destruct (negb (nonempty user) || negb (nonempty pwd)); [done|].
  unfold netrc_files, home. destruct path_home as [d|]; [|done].
  cbv zeta.
  destruct (write_all_effect (netrc_line user pwd) d
              ([".netrc"] ++ (if is_nt then ["_netrc"] else [])) w)
    as (w' & Hm & Hfs).
  exists w'. split; [|exact Hfs].
  rewrite <- Hm. unfold bind, ret. by destruct is_nt.
Qed.

(** X27: Once _prepare_netrc has returned for a user name and a password,
    where the file ~/.netrc could be opened for writing (the home
    directory exists, no directory sits at the path, the system grants
    it) and the line is encoded to at least one byte, the check
    _has_credentials passes whatever is typed into the dialog
    afterwards. *)
Theorem has_credentials_after_prepare_netrc
  home_file params user pwd d bytes w logs w' u p :
  params !! "earthdata_user" = Some user →
  params !! "earthdata_pass" = Some pwd →
  nonempty user = true →
  nonempty pwd = true →
  path_home = Some d →
  home_file ".netrc" = joinpath d ".netrc" →
  can_open permits w d (joinpath d ".netrc") = true →
  encode_text (netrc_line user pwd) = Some bytes →
  (0 < length bytes)%nat →
  prepare params w = Val logs w' →
  In (AuthWrote (joinpath d ".netrc")) logs
  ∧ fs w' !! home_file ".netrc" = Some (File bytes)
  ∧ _has_credentials home_file u p w' = Val true w'.
Proof.
  intros Hpu Hpp Hu Hp Hhome Hfile Hopen Henc Hlen Hrun.
  pose proof (prepare_netrc_effect params w) as Heff.
  rewrite Hpu, Hpp, Hu, Hp, Hhome in Heff. cbn [negb orb] in Heff. cbv zeta in Heff.
  destruct Heff as (w'' & Hrun' & Hfs).
  rewrite Hhome in Hrun. rewrite Hrun in Hrun'. injection Hrun' as -> <-.
  assert (Hf : fs w' !! home_file ".netrc" = Some (File bytes)).
  { rewrite Hfile, Hfs, Hopen, Henc, bool_decide_true by by left. done. }
  split; [|split; [done|]].
  - left. unfold netrc_log. rewrite Hopen, Henc.
    by rewrite bool_decide_true by eauto.
  - unfold _has_credentials. destruct (nonempty u && nonempty p); [done|].
    cbn [any_candidate]. unfold bind at 1, exists_nonempty at 1.
    rewrite Hf. simpl. by destruct (Nat.ltb_spec 0 (length bytes)); [|lia].
Qed.

End NetrcFileProperties.

(** X28: The check of the dialog looks at sizes only: a netrc file that is
    not empty but has no entry for the trusted host lets the run start,
    and the session then falls through to the prompt. *)
Theorem has_credentials_does_not_prevent_prompt
  home_file expanduser netrc_authenticators prompt user pwd w node :
  nonempty user && nonempty pwd = false →
  fs w !! home_file ".netrc" = Some node →
  (0 < node_size node)%nat →
  netrc_entry netrc_authenticators w (expanduser "~/.netrc") = None →
  netrc_entry netrc_authenticators w (expanduser "~/_netrc") = None →
  _has_credentials home_file user pwd w = Val true w
  ∧ lookup_or_prompt expanduser netrc_authenticators prompt w = prompt w.
Proof.
  intros Hpair Hf Hsz H1 H2. split.
  - unfold _has_credentials. rewrite Hpair. cbn [any_candidate].
    unfold bind at 1, exists_nonempty at 1. rewrite Hf.
    by destruct (Nat.ltb_spec 0 (node_size node)); [|lia].
  - by rewrite lookup_or_prompt_order, H1, H2.
Qed.

(** ** The further properties on the sample instances *)

Lemma download_granule_elsewhere_witness :
  fs (world_of (download_granule Sample.env_serving Sample.dl Sample.url1 128 Sample.world0))
    !! "/out"
  = fs Sample.world0 !! "/out".
Proof.
  apply (download_granule_elsewhere Sample.env_serving Sample.dl Sample.url1 128
           Sample.world0 "/out").
  discriminate.
Defined.

Lemma precheck_file_post_witness :
  let w := Sample.with_file "/out/GEDI02_A_001.h5" 7 Sample.world0 in
  let w' := world_of (precheck_file "/out/GEDI02_A_001.h5" 5 w) in
  precheck_file "/out/GEDI02_A_001.h5" 5 w = Val false w'
  ∧ fs w' !! "/out/GEDI02_A_001.h5" = None
  ∧ ∀ q, q ≠ "/out/GEDI02_A_001.h5" → fs w' !! q = fs w !! q.
Proof.
  intros w w'.
  assert (H : precheck_file "/out/GEDI02_A_001.h5" 5 w = Val false w') by compute_eq.
  split; [exact H|].
  exact (precheck_file_post "/out/GEDI02_A_001.h5" 5 w false w' H).
Defined.


Lemma download_granule_fresh_witness :
  (∃ w', download_granule Sample.env_serving Sample.dl Sample.url1 128 Sample.world0
         = Val true w'
         ∧ fs w' !! "/out/GEDI02_A_001.h5" = Some (File (Sample.bytes 5)))
  ∧ (∃ w', download_granule Sample.env_truncating Sample.dl Sample.url1 128 Sample.world0
           = Val false w'
           ∧ fs w' !! "/out/GEDI02_A_001.h5" = Some (File (Sample.bytes 3))).
Proof.
  split.
  - destruct (download_granule_fresh Sample.env_serving Sample.dl Sample.url1 128
                Sample.world0
                (Sample.response (Some "5") [Sample.bytes 2; []; Sample.bytes 3]) 5)
      as (w' & Hd & Hfs & _).
    + reflexivity.
    + apply sample_announces_5.
    + reflexivity.
    + reflexivity.
    + exists w'. split; [exact Hd|]. rewrite Hfs. apply lookup_insert_eq.
  - destruct (download_granule_fresh Sample.env_truncating Sample.dl Sample.url1 128
                Sample.world0 (Sample.response (Some "5") [Sample.bytes 3]) 5)
      as (w' & Hd & Hfs & _).
    + reflexivity.
    + repeat split. by exists "5".
    + reflexivity.
    + reflexivity.
    + exists w'. split; [exact Hd|]. rewrite Hfs. apply lookup_insert_eq.
Defined.

Lemma download_granule_raises_witness :
  download_granule SampleMore.env_offline Sample.dl Sample.url1 128 Sample.world0
  = Exc RequestException (requested Sample.url1 Sample.world0)
  ∧ download_granule SampleMore.env_garbled Sample.dl Sample.url1 128 Sample.world0
    = Exc ValueError (requested Sample.url1 Sample.world0).
Proof.
  split.
  - exact (proj1 (download_granule_raises SampleMore.env_offline Sample.dl Sample.url1
                    128 Sample.world0 eq_refl) RequestException eq_refl).
  - exact (proj2 (download_granule_raises SampleMore.env_garbled Sample.dl Sample.url1
                    128 Sample.world0 eq_refl)
             (Sample.response (Some "12a") [Sample.bytes 5]) "12a"
             eq_refl eq_refl eq_refl eq_refl).
Defined.

Lemma download_files_aborts_witness :
  download_files SampleMore.env_offline Sample.dl [Sample.g1; Sample.g2] Sample.world0
  = Exc RequestException (requested Sample.url1 Sample.world0)
  ∧ attempts (requested Sample.url1 Sample.world0) = attempts Sample.world0 ++ [Sample.url1].
Proof.
  apply (download_files_aborts SampleMore.env_offline Sample.dl Sample.g1 [Sample.g2]
           Sample.world0 RequestException (requested Sample.url1 Sample.world0)).
  vm_compute. reflexivity.
Defined.

Lemma download_files_trace_witness :
  let w' := world_of (download_files Sample.env_recovering Sample.dl
                        [Sample.g1; Sample.g2] Sample.world0) in
  download_files Sample.env_recovering Sample.dl [Sample.g1; Sample.g2] Sample.world0
  = Val [Sample.g1; Sample.g2] w'
  ∧ ∃ ks : list nat,
      length ks = 2
      ∧ Forall (λ k, 1 ≤ k ≤ 4)%nat ks
      ∧ attempts w'
        = attempts Sample.world0
          ++ concat (zip_with replicate ks [Sample.url1; Sample.url2]).
Proof.
  intros w'.
  assert (H : download_files Sample.env_recovering Sample.dl [Sample.g1; Sample.g2]
                Sample.world0 = Val [Sample.g1; Sample.g2] w') by compute_eq.
  split; [exact H|].
  exact (proj2 (download_files_trace Sample.env_recovering Sample.dl
                  [Sample.g1; Sample.g2] Sample.world0 _ w' H)).
Defined.


Lemma run_pipeline_returns_discovered_witness :
  run_pipeline Sample.env_serving SampleMore.find_raises Sample.subset_writes
    (Sample.pipeline false None) Sample.world0
  = Exc (OtherError "FinderError") Sample.world0
  ∧ ∃ r w',
      run_pipeline Sample.env_serving Sample.find_two Sample.subset_writes
        (Sample.pipeline true (Some (Sample.set_after 1))) Sample.world0
      = Val r w'
      ∧ r = [Sample.g1; Sample.g2].
Proof.
  split.
  - exact (run_pipeline_returns_discovered Sample.env_serving Z unit
             SampleMore.find_raises Sample.subset_writes (Sample.pipeline false None)
             Sample.world0).
  - eassert (H : run_pipeline Sample.env_serving Sample.find_two Sample.subset_writes
                   (Sample.pipeline true (Some (Sample.set_after 1))) Sample.world0
                 = Val _ _) by compute_eq.
    eexists _, _. split; [exact H|].
    exact (run_pipeline_returns_discovered Sample.env_serving Z unit
             Sample.find_two Sample.subset_writes
             (Sample.pipeline true (Some (Sample.set_after 1))) Sample.world0 _ _ H).
Defined.

Lemma for_granules_subsetter_raises_witness :
  let w2 := world_of (download_granule Sample.env_serving Sample.dl Sample.url1 128
                        Sample.world0) in
  for_granules Sample.env_serving SampleMore.subset_raises (Sample.pipeline false None)
    [Sample.g1; Sample.g2] Sample.world0
  = Exc (OtherError "SubsetError") w2
  ∧ fs w2 !! "/out/GEDI02_A_001.h5" = Some (File (Sample.bytes 5)).
Proof.
  intros w2. split; [|compute_eq].
  apply (for_granules_subsetter_raises Sample.env_serving Z unit SampleMore.subset_raises
           (Sample.pipeline false None) Sample.g1 [Sample.g2]
           Sample.world0 Sample.world0 w2 (OtherError "SubsetError") w2).
  - reflexivity.
  - compute_eq.
  - compute_eq.
  - reflexivity.
Defined.

Lemma for_granules_raw_file_gone_witness :
  ∃ w2,
    for_granules Sample.env_serving SampleMore.subset_removes (Sample.pipeline false None)
      [Sample.g1; Sample.g2] Sample.world0
    = Exc FileNotFoundError w2.
Proof.
  eexists.
  eapply (for_granules_raw_file_gone Sample.env_serving Z unit SampleMore.subset_removes
            (Sample.pipeline false None) Sample.g1 [Sample.g2]
            Sample.world0 Sample.world0).
  - reflexivity.
  - reflexivity.
  - compute_eq.
  - compute_eq.
  - compute_eq.
  - compute_eq.
Defined.

Lemma process_granule_raw_taken_for_artifact_witness :
  let w := Sample.with_file "/out/GEDI02_A_003.hdf" 5 Sample.world0 in
  process_granule Sample.env_serving Sample.subset_writes (Sample.pipeline true None)
    SampleMore.g3 w
  = Val tt (add_stdout (MsgAlreadySubsetted SampleMore.g3) w).
Proof.
  intros w.
  apply (process_granule_raw_taken_for_artifact Sample.env_serving Z unit
           Sample.subset_writes (Sample.pipeline true None) SampleMore.g3 w).
  - reflexivity.
  - vm_compute. eauto.
Defined.

Lemma init_polygon_takes_over_witness :
  ∃ p w',
    GEDIPipeline_init Sample.env_serving (λ _ : string, @None Z) SampleMore.readable
      (λ _, true) ret ret Sample.bounds_of
      "/out" "GEDI02_A" "002" "2020.01.01" "2020.12.31"
      RoiOther None None false false false None (Some "roi.shp") Sample.world0
    = Val p w'
    ∧ roi p = [10; -60; -5; -45]%Z ∧ roi_gdf p = Some tt.
Proof.
  eassert (H : GEDIPipeline_init Sample.env_serving (λ _ : string, @None Z)
                 SampleMore.readable (λ _, true) ret ret Sample.bounds_of
                 "/out" "GEDI02_A" "002" "2020.01.01" "2020.12.31"
                 RoiOther None None false false false None (Some "roi.shp") Sample.world0
               = Val _ _) by compute_eq.
  eexists _, _. split; [exact H|].
  refine (proj2 (init_polygon_takes_over Sample.env_serving Z unit (λ _, None)
                   SampleMore.readable (λ _, true) ret ret Sample.bounds_of
                   "/out" "GEDI02_A" "002" "2020.01.01" "2020.12.31"
                   RoiOther None None false false false None "roi.shp" None
                   tt (-60)%Z (-5)%Z (-45)%Z 10%Z
                   Sample.world0 (add_stdout MsgRoiNoCrs Sample.world0)
                   (add_stdout MsgRoiNoCrs Sample.world0) _ eq_refl eq_refl eq_refl)
            _ _ H).
  discriminate.
Defined.

Lemma init_bounds_failure_keeps_frame_witness :
  ∃ p w',
    GEDIPipeline_init Sample.env_serving (λ _ : string, @None Z) SampleMore.readable
      (λ _, true) ret ret SampleMore.bounds_fail
      "/out" "GEDI02_A" "002" "2020.01.01" "2020.12.31"
      (RoiList [Num 1; Num 2; Num 3; Num 4]%Z)
      None None false false false None (Some "roi.shp") Sample.world0
    = Val p w'
    ∧ Some [1; 2; 3; 4]%Z = Some (roi p) ∧ roi_gdf p = Some tt.
Proof.
  eassert (H : GEDIPipeline_init Sample.env_serving (λ _ : string, @None Z)
                 SampleMore.readable (λ _, true) ret ret SampleMore.bounds_fail
                 "/out" "GEDI02_A" "002" "2020.01.01" "2020.12.31"
                 (RoiList [Num 1; Num 2; Num 3; Num 4]%Z)
                 None None false false false None (Some "roi.shp") Sample.world0
               = Val _ _) by compute_eq.
  eexists _, _. split; [exact H|].
  refine (init_bounds_failure_keeps_frame Sample.env_serving Z unit (λ _, None)
            SampleMore.readable (λ _, true) ret ret SampleMore.bounds_fail
            "/out" "GEDI02_A" "002" "2020.01.01" "2020.12.31"
            (RoiList [Num 1; Num 2; Num 3; Num 4]%Z)
            None None false false false None "roi.shp" (Some [1; 2; 3; 4]%Z)
            tt (OtherError "BoundsError")
            Sample.world0 (add_stdout MsgRoiNoCrs Sample.world0)
            (add_stdout MsgRoiNoCrs Sample.world0) _ eq_refl eq_refl eq_refl _ _ H).
  discriminate.
Defined.



Lemma load_credentials_partial_pair_dropped_witness :
  SessionNASA._load_credentials SampleMore.env_auth (Some "bob") None SampleMore.world_netrc
  = Val ("alice", "s3cret") SampleMore.world_netrc.
Proof.
  apply (load_credentials_partial_pair_dropped SampleMore.expanduser
           SampleMore.authenticators SampleMore.typed SampleMore.env_auth
           (Some "bob") None SampleMore.world_netrc ("alice", "s3cret")).
  - reflexivity.
  - reflexivity.
  - compute_eq.
Defined.

Example prepare_netrc_needs_home_directory :
  _prepare_netrc (Some "/home/u") SampleMore.joinpath false SampleMore.encode_text
    (λ _, true) SampleMore.params Sample.world0
  = Val [AuthFailed "/home/u/.netrc"] Sample.world0.
Proof. reflexivity. Qed.

Example prepare_netrc_refused_by_system :
  _prepare_netrc (Some "/home/u") SampleMore.joinpath true SampleMore.encode_text
    (λ p, negb (String.eqb p "/home/u/.netrc")) SampleMore.params SampleMore.world_home
  = Val [AuthFailed "/home/u/.netrc"; AuthWrote "/home/u/_netrc"]
      (set_fs <["/home/u/_netrc" :=
                  File (String.list_byte_of_string (netrc_line "alice" "s3cret"))]>
         SampleMore.world_home).
Proof. reflexivity. Qed.

Example prepare_netrc_missing_entry :
  _prepare_netrc (Some "/home/u") SampleMore.joinpath false SampleMore.encode_text
    (λ _, true) {[ "earthdata_user" := "alice" ]} SampleMore.world_home
  = Exc (OtherError "KeyError") SampleMore.world_home.
Proof. reflexivity. Qed.

Lemma has_credentials_after_prepare_netrc_witness :
  ∃ logs w',
    _prepare_netrc (Some "/home/u") SampleMore.joinpath false SampleMore.encode_text
      (λ _, true) SampleMore.params SampleMore.world_home
    = Val logs w'
    ∧ In (AuthWrote "/home/u/.netrc") logs
    ∧ _has_credentials SampleMore.home_file EmptyString EmptyString w' = Val true w'.
Proof.
  eassert (H : _prepare_netrc (Some "/home/u") SampleMore.joinpath false
                 SampleMore.encode_text (λ _, true) SampleMore.params
                 SampleMore.world_home
               = Val _ _) by compute_eq.
  eexists _, _. split; [exact H|].
  destruct (has_credentials_after_prepare_netrc (Some "/home/u") SampleMore.joinpath
              false SampleMore.encode_text (λ _, true) SampleMore.home_file
              SampleMore.params "alice" "s3cret" "/home/u"
              (String.list_byte_of_string (netrc_line "alice" "s3cret"))
              SampleMore.world_home _ _ EmptyString EmptyString
              eq_refl eq_refl eq_refl eq_refl eq_refl eq_refl eq_refl eq_refl
              ltac:(vm_compute; lia) H) as (Hlog & _ & Hcheck).
  split; [exact Hlog|exact Hcheck].
Defined.

Lemma has_credentials_does_not_prevent_prompt_witness :
  _has_credentials SampleMore.home_file "alice" EmptyString SampleMore.world_netrc
  = Val true SampleMore.world_netrc
  ∧ lookup_or_prompt SampleMore.expanduser (λ _ _ _, Some None) SampleMore.typed
      SampleMore.world_netrc
    = SampleMore.typed SampleMore.world_netrc.
Proof.
  refine (has_credentials_does_not_prevent_prompt SampleMore.home_file
            SampleMore.expanduser (λ _ _ _, Some None) SampleMore.typed
            "alice" EmptyString SampleMore.world_netrc (File (Sample.bytes 12))
            eq_refl _ _ _ _).
  - compute_eq.
  - simpl. lia.
  - compute_eq.
  - compute_eq.
Defined.
